(** * realm_stats: the realm activity report of analytics/management/commands

    A shallow embedding of [analytics/management/commands/realm_stats.py].
    The Django tables the command reads are lists of rows, foreign keys are
    row ids resolved by lookup, a queryset is the list of rows it selects and
    [.count()] is its length as a Python integer.  The command itself runs in
    a small monad over the database, standard output and raised exceptions.

    A method takes the value of [timezone_now()], in microseconds, as a
    parameter for each time it reads the clock: [api_messages], which calls
    [total_messages] and then [human_messages], takes two.  A run of the
    command is modelled at one instant: all its readings are [now]. *)

From Stdlib Require Import ZArith List String Ascii Bool Lia Permutation.
From Stdlib Require Import Sorting.Sorted Sorting.Mergesort Orders.
From Stdlib Require Import Floats.SpecFloat DecimalString.
Import ListNotations.

Local Open Scope string_scope.
Local Open Scope Z_scope.

(** ** Python values *)

Module Py.

(** [str(n)] for a Python integer. *)
Definition str (n : Z) : string := NilZero.string_of_int (Z.to_int n).

(** [len(l)] and [QuerySet.count()]. *)
Definition len {A : Type} (l : list A) : Z := Z.of_nat (List.length l).

(** [sum(l)] for a list of integers. *)
Definition sum (l : list Z) : Z := fold_right Z.add 0 l.

(** [needle in s] for strings, which is also SQL's [LIKE '%needle%']. *)
Fixpoint contains (needle s : string) : bool :=
  String.prefix needle s ||
  match s with
  | EmptyString => false
  | String _ s' => contains needle s'
  end.

(** [x in l] for a list of strings. *)
Definition str_in (x : string) (l : list string) : bool :=
  existsb (String.eqb x) l.

(** A Python [float] is an IEEE 754 binary64 number. *)
Definition float : Type := spec_float.
Definition prec : Z := 53.
Definition emax : Z := 1024.

Definition fmul : float -> float -> float := SFmul prec emax.
Definition fdiv : float -> float -> float := SFdiv prec emax.

(** Rounding of an integer to the nearest float, ties to even; the result
    is an infinity when the integer is out of range. *)
Definition round_int (n : Z) : float := binary_normalize prec emax n 0 false.

Definition is_zero (x : float) : bool :=
  match x with S754_zero _ => true | _ => false end.

Definition is_infinity (x : float) : bool :=
  match x with S754_infinity _ => true | _ => false end.

(** The integer nearest to [100 * m * 2^e], ties to even. *)
Definition hundredths (m : positive) (e : Z) : Z :=
  match e with
  | Zneg p =>
      let num := 100 * Zpos m in
      let den := Z.pow_pos 2 p in
      let q := num / den in
      let r := num mod den in
      match 2 * r ?= den with
      | Lt => q
      | Eq => if Z.even q then q else q + 1
      | Gt => q + 1
      end
  | _ => 100 * Zpos m * 2 ^ e
  end.

Definition two_digits (n : Z) : string :=
  if n <? 10 then "0" ++ str n else str n.

(** [f"{x:.2f}"]: the exact value of [x] rounded to two decimals. *)
Definition format_2f (x : float) : string :=
  match x with
  | S754_zero s => (if s then "-" else "") ++ "0.00"
  | S754_infinity s => (if s then "-" else "") ++ "inf"
  | S754_nan => "nan"
  | S754_finite s m e =>
      let h := hundredths m e in
      (if s then "-" else "") ++ str (h / 100) ++ "." ++ two_digits (h mod 100)
  end.

(** [datetime.timedelta(days=n)] in microseconds. *)
Definition timedelta_days (n : Z) : Z := n * 86400000000.

End Py.

(** ** The tables of zerver.models, with the columns the command reads *)

Module Realm.
Record t : Type := mk { id : Z; string_id : string }.
End Realm.

Module UserProfile.
Record t : Type := mk {
  id : Z;
  realm : Z;
  is_active : bool;
  enable_desktop_notifications : bool;
  enter_sends : bool }.
End UserProfile.

Module Client.
Record t : Type := mk { id : Z; name : string }.
End Client.

Module Recipient.
Record t : Type := mk { id : Z; type : Z; type_id : Z }.
End Recipient.

Module Stream.
Record t : Type := mk { id : Z; realm : Z; name : string }.
End Stream.

Module Subscription.
Record t : Type := mk {
  id : Z;
  user_profile : Z;
  recipient : Z;
  active : bool;
  is_muted : bool;
  desktop_notifications : bool }.
End Subscription.

Module UserActivity.
Record t : Type := mk {
  id : Z;
  user_profile : Z;
  client : Z;
  query : string;
  last_visit : Z }.
End UserActivity.

Module UserMessage.
Record t : Type := mk { id : Z; user_profile : Z; message : Z; flags : Z }.
End UserMessage.

Module Message.
Record t : Type := mk {
  id : Z;
  sender : Z;
  recipient : Z;
  sending_client : Z;
  content : string;
  date_sent : Z }.
End Message.

(** The database: one list of rows per table. *)
Record Database : Type := mkDatabase {
  zerver_realm : list Realm.t;
  zerver_userprofile : list UserProfile.t;
  zerver_client : list Client.t;
  zerver_recipient : list Recipient.t;
  zerver_stream : list Stream.t;
  zerver_subscription : list Subscription.t;
  zerver_useractivity : list UserActivity.t;
  zerver_usermessage : list UserMessage.t;
  zerver_message : list Message.t }.

(** The constants of zerver.models the command names: the recipient types
    and the mask of the starred bit of [UserMessage.flags]. *)
Class Models : Type := {
  Recipient_PERSONAL : Z;
  Recipient_STREAM : Z;
  Recipient_HUDDLE : Z;
  UserMessage_flags_starred : Z }.


(** ** Exceptions, standard output and the database as the state of a run *)

(** The exceptions a run can raise. [Realm.DoesNotExist] carries the
    identifier that was looked up. *)
Inductive exception : Type :=
| Realm_DoesNotExist (string_id : string)
| CommandError (e : exception)
| ZeroDivisionError
| OverflowError.

Record World : Type := mkWorld { db : Database; stdout : string }.

Definition M (A : Type) : Type := World -> World * (exception + A).

Definition ret {A : Type} (a : A) : M A := fun w => (w, inr a).

Definition bind {A B : Type} (c : M A) (k : A -> M B) : M B :=
  fun w =>
    match c w with
    | (w', inr a) => k a w'
    | (w', inl e) => (w', inl e)
    end.

Definition raise {A : Type} (e : exception) : M A := fun w => (w, inl e).

Declare Scope monad_scope.
Delimit Scope monad_scope with monad.
Notation "x <- c ;; k" := (bind c (fun x => k))
  (at level 61, c at next level, right associativity) : monad_scope.
Notation "c ;; k" := (bind c (fun _ => k))
  (at level 61, right associativity) : monad_scope.
Local Open Scope monad_scope.

(** [try: c except Realm.DoesNotExist as e: h e]. *)
Definition except_DoesNotExist {A : Type} (c : M A) (h : exception -> M A) : M A :=
  fun w =>
    match c w with
    | (w', inl (Realm_DoesNotExist s)) => h (Realm_DoesNotExist s) w'
    | r => r
    end.

(** A read of the database: the evaluation of a queryset. *)
Definition query {A : Type} (q : Database -> A) : M A :=
  fun w => (w, inr (q (db w))).

Definition newline : string := String (ascii_of_nat 10) EmptyString.

(** [print(s, end=e)] and [print(s)]. *)
Definition print_end (s e : string) : M unit :=
  fun w => (mkWorld (db w) (stdout w ++ s ++ e)%string, inr tt).

Definition print (s : string) : M unit := print_end s newline.

(** [for x in l: body x]. *)
Fixpoint for_ {A : Type} (l : list A) (body : A -> M unit) : M unit :=
  match l with
  | [] => ret tt
  | x :: l' => body x ;; for_ l' body
  end.

(** [[f x for x in l]]. *)
Fixpoint comprehension {A B : Type} (f : A -> M B) (l : list A) : M (list B) :=
  match l with
  | [] => ret []
  | x :: l' => y <- f x ;; ys <- comprehension f l' ;; ret (y :: ys)
  end.

(** [float(n)] for an integer. *)
Definition float_ (n : Z) : M Py.float :=
  let x := Py.round_int n in
  if Py.is_infinity x then raise OverflowError else ret x.

(** [n / y] for an integer [n] and a float [y]. *)
Definition truediv (n : Z) (y : Py.float) : M Py.float :=
  x <- float_ n ;;
  if Py.is_zero y then raise ZeroDivisionError else ret (Py.fdiv x y).

(** [sorted(l, reverse=True)] for a list of integers. *)
Module ZDescending <: TotalLeBool.
Definition t : Type := Z.
Definition leb (x y : Z) : bool := y <=? x.
Lemma leb_total (x y : Z) : leb x y = true \/ leb y x = true.
Proof. unfold leb. lia. Qed.
End ZDescending.

Module SortDescending := Sort ZDescending.

Definition sorted_reverse (l : list Z) : list Z := SortDescending.sort l.

(** [qs.values(key).annotate(count=Count(key))], given the [key] column of
    [qs]: one row per distinct key with the number of rows that carry it. *)
Definition values_annotate_count (keys : list Z) : list (Z * Z) :=
  map (fun k => (k, Py.len (filter (Z.eqb k) keys))) (nodup Z.eq_dec keys).

(** ** Lookups across foreign keys *)

Definition get_userprofile (d : Database) (pk : Z) : option UserProfile.t :=
  find (fun u => UserProfile.id u =? pk) (zerver_userprofile d).

Definition get_client (d : Database) (pk : Z) : option Client.t :=
  find (fun c => Client.id c =? pk) (zerver_client d).

Definition get_recipient (d : Database) (pk : Z) : option Recipient.t :=
  find (fun r => Recipient.id r =? pk) (zerver_recipient d).

(** [sender__realm=realm] *)
Definition sender__realm (d : Database) (realm : Realm.t) (m : Message.t) : bool :=
  match get_userprofile d (Message.sender m) with
  | Some u => UserProfile.realm u =? Realm.id realm
  | None => false
  end.

(** [sending_client__name__in=names] *)
Definition sending_client__name__in (d : Database) (names : list string)
    (m : Message.t) : bool :=
  match get_client d (Message.sending_client m) with
  | Some c => Py.str_in (Client.name c) names
  | None => false
  end.

(** The [type] of the recipient row a message is joined with. *)
Definition recipient__type (d : Database) (m : Message.t) : option Z :=
  option_map Recipient.type (get_recipient d (Message.recipient m)).

(** [.filter(recipient__type=t)] *)
Definition filter_recipient__type (d : Database) (t : Z) (m : Message.t) : bool :=
  match recipient__type d m with
  | Some t' => t' =? t
  | None => false
  end.

(** [.exclude(recipient__type=t)]: the joined row exists and has another type. *)
Definition exclude_recipient__type (d : Database) (t : Z) (m : Message.t) : bool :=
  match recipient__type d m with
  | Some t' => negb (t' =? t)
  | None => false
  end.

(** [date_sent__gt=cutoff] *)
Definition date_sent__gt (cutoff : Z) (m : Message.t) : bool :=
  cutoff <? Message.date_sent m.

(** Modelled from the spec: get_realm is defined in zerver/models.py, which
    is not among the sources.  It returns the realm whose [string_id] is the
    identifier, and for an unknown identifier raises [Realm.DoesNotExist],
    "an error naming the bad identifier". *)
Definition get_realm (string_id : string) : M Realm.t :=
  fun w =>
    match find (fun realm => String.eqb (Realm.string_id realm) string_id)
               (zerver_realm (db w)) with
    | Some realm => (w, inr realm)
    | None => (w, inl (Realm_DoesNotExist string_id))
    end.

(** ** Module level *)

Module realm_stats.

Definition MOBILE_CLIENT_LIST : list string := ["Android"; "ios"].
Definition HUMAN_CLIENT_LIST : list string := (MOBILE_CLIENT_LIST ++ ["website"])%list.

Definition human_messages (d : Database) : list Message.t :=
  filter (sending_client__name__in d HUMAN_CLIENT_LIST) (zerver_message d).

End realm_stats.

(** ** The command *)

Module Command.

Section Methods.

Context {models : Models}.

(** The database a method reads and its one reading of the clock. *)
Variable d : Database.
Variable now : Z.

Definition active_users (realm : Realm.t) : list UserProfile.t :=
  (* Has been active (on the website, for now) in the last 7 days. *)
  let activity_cutoff := now - Py.timedelta_days 7 in
  flat_map
    (fun activity =>
       match get_userprofile d (UserActivity.user_profile activity),
             get_client d (UserActivity.client activity) with
       | Some user_profile, Some client =>
           if (UserProfile.realm user_profile =? Realm.id realm)
              && UserProfile.is_active user_profile
              && (activity_cutoff <? UserActivity.last_visit activity)
              && String.eqb (UserActivity.query activity) "/json/users/me/pointer"
              && String.eqb (Client.name client) "website"
           then [user_profile] else []
       | _, _ => []
       end)
    (zerver_useractivity d).

Definition messages_sent_by (user : UserProfile.t) (days_ago : Z) : Z :=
  let sent_time_cutoff := now - Py.timedelta_days days_ago in
  Py.len (filter (fun m => (Message.sender m =? UserProfile.id user)
                           && date_sent__gt sent_time_cutoff m)
                 (realm_stats.human_messages d)).

Definition total_messages (realm : Realm.t) (days_ago : Z) : Z :=
  let sent_time_cutoff := now - Py.timedelta_days days_ago in
  Py.len (filter (fun m => sender__realm d realm m
                           && date_sent__gt sent_time_cutoff m)
                 (zerver_message d)).

Definition human_messages (realm : Realm.t) (days_ago : Z) : Z :=
  let sent_time_cutoff := now - Py.timedelta_days days_ago in
  Py.len (filter (fun m => sender__realm d realm m
                           && date_sent__gt sent_time_cutoff m)
                 (realm_stats.human_messages d)).

End Methods.

(** The clock is read at [now] by [total_messages] and then at [now'] by
    [human_messages]. *)
Definition api_messages (d : Database) (now now' : Z) (realm : Realm.t)
    (days_ago : Z) : Z :=
  total_messages d now realm days_ago - human_messages d now' realm days_ago.

Section RecipientMethods.

Context {models : Models}.

Variable d : Database.
Variable now : Z.

Definition stream_messages (realm : Realm.t) (days_ago : Z) : Z :=
  let sent_time_cutoff := now - Py.timedelta_days days_ago in
  Py.len (filter (fun m => sender__realm d realm m
                           && date_sent__gt sent_time_cutoff m
                           && filter_recipient__type d Recipient_STREAM m)
                 (realm_stats.human_messages d)).

Definition private_messages (realm : Realm.t) (days_ago : Z) : Z :=
  let sent_time_cutoff := now - Py.timedelta_days days_ago in
  Py.len (filter (exclude_recipient__type d Recipient_HUDDLE)
            (filter (exclude_recipient__type d Recipient_STREAM)
               (filter (fun m => sender__realm d realm m
                                 && date_sent__gt sent_time_cutoff m)
                       (realm_stats.human_messages d)))).

Definition group_private_messages (realm : Realm.t) (days_ago : Z) : Z :=
  let sent_time_cutoff := now - Py.timedelta_days days_ago in
  Py.len (filter (exclude_recipient__type d Recipient_PERSONAL)
            (filter (exclude_recipient__type d Recipient_STREAM)
               (filter (fun m => sender__realm d realm m
                                 && date_sent__gt sent_time_cutoff m)
                       (realm_stats.human_messages d)))).

End RecipientMethods.

Section Run.

Context {models : Models}.

Definition report_percentage (numerator denominator : Z) (text : string) : M unit :=
  fraction <- (if denominator =? 0
               then ret (S754_zero false)
               else y <- float_ denominator ;; truediv numerator y) ;;
  print (Py.format_2f (Py.fmul fraction (Py.round_int 100)) ++ "% of" ++ " " ++ text).

(** The body of [for days_ago in (1, 7, 30)]. *)
Definition handle_days_ago (now : Z) (realm : Realm.t)
    (user_profiles : list UserProfile.t) (days_ago : Z) : M unit :=
  print ("In last " ++ Py.str days_ago ++ " days, users sent:") ;;
  sender_quantities <-
    comprehension (fun user => query (fun d => messages_sent_by d now user days_ago))
                  user_profiles ;;
  for_ (sorted_reverse sender_quantities)
       (fun quantity => print_end (Py.str quantity) " ") ;;
  print "" ;;

  n <- query (fun d => stream_messages d now realm days_ago) ;;
  print (Py.str n ++ " stream messages") ;;
  n <- query (fun d => private_messages d now realm days_ago) ;;
  print (Py.str n ++ " one-on-one private messages") ;;
  n <- query (fun d => api_messages d now now realm days_ago) ;;
  print (Py.str n ++ " messages sent via the API") ;;
  n <- query (fun d => group_private_messages d now realm days_ago) ;;
  print (Py.str n ++ " group private messages").

(** The querysets of the second half of the report. *)

Definition user_profiles_of (realm : Realm.t) (d : Database) : list UserProfile.t :=
  filter (fun u => (UserProfile.realm u =? Realm.id realm) && UserProfile.is_active u)
         (zerver_userprofile d).

Definition streams_of (realm : Realm.t) (d : Database) : list Stream.t :=
  filter
    (fun stream =>
       (Stream.realm stream =? Realm.id realm)
       && existsb
            (fun sub =>
               existsb
                 (fun rcp =>
                    (Subscription.recipient sub =? Recipient.id rcp)
                    && (Recipient.type rcp =? 2)
                    && (Recipient.type_id rcp =? Stream.id stream)
                    && Subscription.active sub)
                 (zerver_recipient d))
            (zerver_subscription d))
    (zerver_stream d).

(** [user_profile__in=user_profiles] *)
Definition user_profile__in (user_profiles : list UserProfile.t) (pk : Z) : bool :=
  existsb (fun u => UserProfile.id u =? pk) user_profiles.

Definition starrers_of (user_profiles : list UserProfile.t) (d : Database)
    : list (Z * Z) :=
  values_annotate_count
    (map UserMessage.user_profile
       (filter (fun um =>
                  user_profile__in user_profiles (UserMessage.user_profile um)
                  (* flags = (flags | starred): the starred bit is set *)
                  && (UserMessage.flags um
                      =? Z.lor (UserMessage.flags um) UserMessage_flags_starred))
               (zerver_usermessage d))).

Definition active_user_subs_of (user_profiles : list UserProfile.t) (d : Database)
    : list Subscription.t :=
  filter (fun sub =>
            user_profile__in user_profiles (Subscription.user_profile sub)
            && Subscription.active sub)
         (zerver_subscription d).

Definition non_home_view_of (active_user_subs : list Subscription.t) : list (Z * Z) :=
  values_annotate_count
    (map Subscription.user_profile (filter Subscription.is_muted active_user_subs)).

Definition markup_messages_of (realm : Realm.t) (d : Database) : list (Z * Z) :=
  values_annotate_count
    (map Message.sender
       (filter (fun m => sender__realm d realm m
                         && Py.contains "~~~" (Message.content m))
               (realm_stats.human_messages d))).

Definition notifications_of (active_user_subs : list Subscription.t) : list (Z * Z) :=
  values_annotate_count
    (map Subscription.user_profile
       (filter Subscription.desktop_notifications active_user_subs)).

(** The body of [for realm in realms]. *)
Definition handle_realm (now : Z) (realm : Realm.t) : M unit :=
  print (Realm.string_id realm) ;;

  user_profiles <- query (user_profiles_of realm) ;;
  active_users <- query (fun d => active_users d now realm) ;;
  let num_active := Py.len active_users in

  print (Py.str num_active ++ " active users ("
         ++ Py.str (Py.len user_profiles) ++ " total)") ;;
  streams <- query (streams_of realm) ;;
  print (Py.str (Py.len streams) ++ " streams") ;;

  for_ [1; 7; 30] (handle_days_ago now realm user_profiles) ;;

  let num_notifications_enabled :=
    Py.len (filter UserProfile.enable_desktop_notifications active_users) in
  report_percentage num_notifications_enabled num_active
                    "active users have desktop notifications enabled" ;;

  let num_enter_sends := Py.len (filter UserProfile.enter_sends active_users) in
  report_percentage num_enter_sends num_active
                    "active users have enter-sends" ;;

  all_message_count <-
    query (fun d => Py.len (filter (sender__realm d realm)
                                   (realm_stats.human_messages d))) ;;
  multi_paragraph_message_count <-
    query (fun d =>
             Py.len (filter (fun m => sender__realm d realm m
                                      && Py.contains (newline ++ newline)
                                                     (Message.content m))
                            (realm_stats.human_messages d))) ;;
  report_percentage multi_paragraph_message_count all_message_count
                    "all messages are multi-paragraph" ;;

  (* Starred messages *)
  starrers <- query (starrers_of user_profiles) ;;
  print (Py.str (Py.len starrers) ++ " users have starred "
         ++ Py.str (Py.sum (map snd starrers)) ++ " messages") ;;

  active_user_subs <- query (active_user_subs_of user_profiles) ;;

  (* Streams not in home view *)
  let non_home_view := non_home_view_of active_user_subs in
  print (Py.str (Py.len non_home_view) ++ " users have "
         ++ Py.str (Py.sum (map snd non_home_view)) ++ " streams not in home view") ;;

  (* Code block markup *)
  markup_messages <- query (markup_messages_of realm) ;;
  print (Py.str (Py.len markup_messages) ++ " users have used code block markup on "
         ++ Py.str (Py.sum (map snd markup_messages)) ++ " messages") ;;

  (* Notifications for stream messages *)
  let notifications := notifications_of active_user_subs in
  print (Py.str (Py.len notifications) ++ " users receive desktop notifications for "
         ++ Py.str (Py.sum (map snd notifications)) ++ " streams") ;;

  print "".

(** [Realm.objects.all()] *)
Definition Realm_objects_all (d : Database) : list Realm.t := zerver_realm d.

Definition handle (options_realms : list string) (now : Z) : M unit :=
  realms <-
    match options_realms with
    | _ :: _ =>
        except_DoesNotExist
          (comprehension get_realm options_realms)
          (fun e => raise (CommandError e))
    | [] => query Realm_objects_all
    end ;;
  for_ realms (handle_realm now).

End Run.

End Command.

(** ** Vocabulary of the statements *)

Import Command.

(** The queryset [Command.human_messages] counts: the human messages sent
    from [realm] in the last [days_ago] days. *)
Definition human_messages_in_window (d : Database) (now : Z) (realm : Realm.t)
    (days_ago : Z) : list Message.t :=
  filter (fun m => sender__realm d realm m
                   && date_sent__gt (now - Py.timedelta_days days_ago) m)
         (realm_stats.human_messages d).

(** The recipient of a message is neither a stream, nor a person, nor a
    huddle. *)
Definition other_recipient_type {models : Models} (d : Database) (m : Message.t)
    : bool :=
  match recipient__type d m with
  | Some t =>
      negb (t =? Recipient_PERSONAL) && negb (t =? Recipient_STREAM)
      && negb (t =? Recipient_HUDDLE)
  | None => false
  end.

(** The foreign key [zerver_message.recipient_id] is valid. *)
Definition recipients_exist (d : Database) : bool :=
  forallb (fun m => match get_recipient d (Message.recipient m) with
                    | Some _ => true
                    | None => false
                    end)
          (zerver_message d).

(** The primary key of [zerver_userprofile] and the unique [string_id] of
    [zerver_realm]. *)
Definition userprofile_ids (d : Database) : list Z :=
  map UserProfile.id (zerver_userprofile d).

Definition realm_string_ids (d : Database) : list string :=
  map Realm.string_id (zerver_realm d).

(** No realm of the database has this identifier. *)
Definition unknown_realm (d : Database) (string_id : string) : Prop :=
  forall realm, In realm (zerver_realm d) -> Realm.string_id realm <> string_id.

(** What a computation prints and returns when it starts on database [d]
    with nothing printed yet. *)
Definition run {A : Type} (c : M A) (d : Database) : string * (exception + A) :=
  let '(w, r) := c (mkWorld d "") in (stdout w, r).

(** A computation that leaves the database as it found it and only adds to
    what is already printed. *)
Definition read_only {A : Type} (c : M A) : Prop :=
  forall w, c w = (mkWorld (db w) (stdout w ++ fst (run c (db w))),
                   snd (run c (db w))).

(** The lines of one lookback window, as the report lays them out. *)
Definition window_report {models : Models} (d : Database) (now : Z)
    (realm : Realm.t) (days_ago : Z) : string :=
  "In last " ++ Py.str days_ago ++ " days, users sent:" ++ newline
  ++ String.concat ""
       (map (fun quantity => Py.str quantity ++ " ")
            (sorted_reverse
               (map (fun user => messages_sent_by d now user days_ago)
                    (user_profiles_of realm d))))
  ++ newline
  ++ Py.str (stream_messages d now realm days_ago) ++ " stream messages" ++ newline
  ++ Py.str (private_messages d now realm days_ago)
  ++ " one-on-one private messages" ++ newline
  ++ Py.str (api_messages d now now realm days_ago)
  ++ " messages sent via the API" ++ newline
  ++ Py.str (group_private_messages d now realm days_ago)
  ++ " group private messages" ++ newline.

(** The lines of a realm's report before its lookback windows. *)
Definition realm_header (d : Database) (now : Z) (realm : Realm.t) : string :=
  Realm.string_id realm ++ newline
  ++ Py.str (Py.len (active_users d now realm)) ++ " active users ("
  ++ Py.str (Py.len (user_profiles_of realm d)) ++ " total)" ++ newline
  ++ Py.str (Py.len (streams_of realm d)) ++ " streams" ++ newline.

(** ** A small database to evaluate the statements on *)

#[local] Instance zulip_models : Models := {|
  Recipient_PERSONAL := 1;
  Recipient_STREAM := 2;
  Recipient_HUDDLE := 3;
  UserMessage_flags_starred := 2 |}.

Definition day : Z := 86400000000.

Definition today : Z := 100 * day.

Definition realm_zulip : Realm.t := Realm.mk 1 "zulip".

Definition realm_lear : Realm.t := Realm.mk 2 "lear".

Definition sample : Database := {|
  zerver_realm := [realm_zulip; realm_lear];
  zerver_userprofile :=
    [UserProfile.mk 10 1 true true false;
     UserProfile.mk 11 1 true false true;
     UserProfile.mk 12 1 false false false;
     UserProfile.mk 20 2 true true true];
  zerver_client :=
    [Client.mk 1 "website"; Client.mk 2 "ios"; Client.mk 3 "ZulipPython"];
  zerver_recipient :=
    [Recipient.mk 100 1 10; Recipient.mk 101 2 7; Recipient.mk 102 3 1];
  zerver_stream := [Stream.mk 7 1 "general"];
  zerver_subscription :=
    [Subscription.mk 1 10 101 true true false;
     Subscription.mk 2 11 101 true false true];
  zerver_useractivity :=
    [UserActivity.mk 1 10 1 "/json/users/me/pointer" (today - 5)];
  zerver_usermessage :=
    [UserMessage.mk 1 10 1000 3; UserMessage.mk 2 10 1001 2;
     UserMessage.mk 3 11 1000 1];
  zerver_message :=
    [Message.mk 1000 10 101 1 "hello" (today - 10);
     Message.mk 1001 10 100 2 "~~~ code ~~~" (today - 2 * day);
     Message.mk 1002 11 102 1 ("a" ++ newline ++ newline ++ "b") (today - 8 * day);
     Message.mk 1003 12 101 1 "left" (today - 10);
     Message.mk 1004 11 101 3 "api" (today - 10)] |}.

(** The same database with one more recipient row, of a type that is none
    of the three the command names, and a message from the website to it. *)
Definition sample_other_recipient : Database := {|
  zerver_realm := zerver_realm sample;
  zerver_userprofile := zerver_userprofile sample;
  zerver_client := zerver_client sample;
  zerver_recipient := (zerver_recipient sample ++ [Recipient.mk 103 4 0])%list;
  zerver_stream := zerver_stream sample;
  zerver_subscription := zerver_subscription sample;
  zerver_useractivity := zerver_useractivity sample;
  zerver_usermessage := zerver_usermessage sample;
  zerver_message :=
    (zerver_message sample ++ [Message.mk 1005 11 103 1 "odd" (today - 10)])%list |}.


(** ** Vocabulary of the further statements *)

(** The number [report_percentage] prints before the percent sign. *)
Definition percentage (numerator denominator : Z) : string :=
  if denominator =? 0 then "0.00"
  else Py.format_2f
         (Py.fmul (Py.fdiv (Py.round_int numerator) (Py.round_int denominator))
                  (Py.round_int 100)).

Definition percentage_line (numerator denominator : Z) (text : string) : string :=
  percentage numerator denominator ++ "% of " ++ text ++ newline.

(** A line "X users ... Y ..." on the rows of a grouped queryset. *)
Definition users_line (rows : list (Z * Z)) (middle ending : string) : string :=
  Py.str (Py.len rows) ++ middle ++ Py.str (Py.sum (map snd rows)) ++ ending
  ++ newline.

(** The lines of a realm's report after its lookback windows. *)
Definition realm_footer {models : Models} (d : Database) (now : Z)
    (realm : Realm.t) : string :=
  let active := active_users d now realm in
  let user_profiles := user_profiles_of realm d in
  let active_user_subs := active_user_subs_of user_profiles d in
  percentage_line
    (Py.len (filter UserProfile.enable_desktop_notifications active))
    (Py.len active) "active users have desktop notifications enabled"
  ++ percentage_line
       (Py.len (filter UserProfile.enter_sends active))
       (Py.len active) "active users have enter-sends"
  ++ percentage_line
       (Py.len (filter (fun m => sender__realm d realm m
                                 && Py.contains (newline ++ newline)
                                                (Message.content m))
                       (realm_stats.human_messages d)))
       (Py.len (filter (sender__realm d realm) (realm_stats.human_messages d)))
       "all messages are multi-paragraph"
  ++ users_line (starrers_of user_profiles d) " users have starred " " messages"
  ++ users_line (non_home_view_of active_user_subs)
       " users have " " streams not in home view"
  ++ users_line (markup_messages_of realm d)
       " users have used code block markup on " " messages"
  ++ users_line (notifications_of active_user_subs)
       " users receive desktop notifications for " " streams"
  ++ newline.

(** The whole report of a realm. *)
Definition realm_report {models : Models} (d : Database) (now : Z)
    (realm : Realm.t) : string :=
  realm_header d now realm
  ++ window_report d now realm 1
  ++ window_report d now realm 7
  ++ window_report d now realm 30
  ++ realm_footer d now realm.

(** Every exception the computation can raise satisfies [P]. *)
Definition raises_only {A : Type} (P : exception -> Prop) (c : M A) : Prop :=
  forall w e, snd (c w) = inl e -> P e.

(** Every identifier of the list names a realm of the database. *)
Definition known_realms (d : Database) (string_ids : list string) : Prop :=
  forall s, In s string_ids ->
            exists realm, In realm (zerver_realm d) /\ Realm.string_id realm = s.

(** The float 1.0. *)
Definition float_one : Py.float := S754_finite false 4503599627370496 (-52).

(** ** Counting in querysets *)

Section Counting.

Context {A : Type}.

Lemma filter_filter (p q : A -> bool) (l : list A) :
  filter q (filter p l) = filter (fun x => p x && q x) l.
Proof.
  induction l as [|x l IH]; simpl; [reflexivity|].
  destruct (p x); simpl; [destruct (q x)|]; now rewrite IH.
Qed.

Lemma len_nonneg (l : list A) : 0 <= Py.len l.
Proof. unfold Py.len. lia. Qed.

Lemma len_cons (x : A) (l : list A) : Py.len (x :: l) = 1 + Py.len l.
Proof. unfold Py.len. simpl List.length. lia. Qed.

Lemma len_filter_cons (p : A -> bool) (x : A) (l : list A) :
  Py.len (filter p (x :: l)) = Z.b2z (p x) + Py.len (filter p l).
Proof. simpl. destruct (p x); [rewrite len_cons|]; cbn [Z.b2z]; lia. Qed.

Lemma len_filter_le (p : A -> bool) (l : list A) :
  Py.len (filter p l) <= Py.len l.
Proof. unfold Py.len. pose proof (filter_length_le p l). lia. Qed.

Lemma len_filter_negb (p : A -> bool) (l : list A) :
  Py.len l - Py.len (filter p l) = Py.len (filter (fun x => negb (p x)) l).
Proof. unfold Py.len. pose proof (filter_length p l). lia. Qed.

Lemma len_filter_zero (p : A -> bool) (l : list A) :
  Py.len (filter p l) = 0 <-> forall x, In x l -> p x = false.
Proof.
  induction l as [|x l IH].
  - simpl. split; [intros _ y []|reflexivity].
  - rewrite len_filter_cons. pose proof (len_nonneg (filter p l)).
    split.
    + intros E y [Exy|Hy].
      * subst y. destruct (p x); cbn [Z.b2z] in E; [lia|reflexivity].
      * apply IH; [destruct (p x); cbn [Z.b2z] in E; lia|exact Hy].
    + intros Hall. rewrite (Hall x (or_introl eq_refl)). cbn [Z.b2z].
      rewrite Z.add_0_l.
      apply IH. intros y Hy. apply Hall. now right.
Qed.

(** Three selections that between them take every row once, and the rows
    that satisfy [o] twice. *)
Lemma len_three_way (a b c o : A -> bool) (l : list A) :
  (forall x, In x l ->
     Z.b2z (a x) + Z.b2z (b x) + Z.b2z (c x) = 1 + Z.b2z (o x)) ->
  Py.len (filter a l) + Py.len (filter b l) + Py.len (filter c l)
  = Py.len l + Py.len (filter o l).
Proof.
  induction l as [|x l IH]; intros Hx.
  - reflexivity.
  - rewrite !len_filter_cons, len_cons.
    specialize (Hx x (or_introl eq_refl)) as Hhead.
    assert (Htail : forall y, In y l ->
              Z.b2z (a y) + Z.b2z (b y) + Z.b2z (c y) = 1 + Z.b2z (o y))
      by (intros y Hy; apply Hx; now right).
    specialize (IH Htail). lia.
Qed.

End Counting.

(** ** C3: API traffic is the difference of two counts *)

(** At one reading of the clock the human count is a selection of the rows
    the total counts, so the difference is the number of the remaining
    rows. *)
Lemma api_messages_count (d : Database) (now : Z) (realm : Realm.t) (days_ago : Z) :
  api_messages d now now realm days_ago
  = Py.len
      (filter (fun m => negb (sending_client__name__in d realm_stats.HUMAN_CLIENT_LIST m))
         (filter (fun m => sender__realm d realm m
                           && date_sent__gt (now - Py.timedelta_days days_ago) m)
                 (zerver_message d))).
Proof.
  unfold api_messages, total_messages, Command.human_messages,
    realm_stats.human_messages.
  cbv zeta. rewrite <- len_filter_negb. f_equal. f_equal.
  rewrite !filter_filter. apply filter_ext. intros m. apply andb_comm.
Qed.






(** ** C6: the human clients *)





(** ** C1: the three recipient counts against the human count *)

Section RecipientCounts.

Context {models : Models}.

Variable d : Database.
Variable now : Z.
Variable realm : Realm.t.
Variable days_ago : Z.

Lemma human_messages_is_len :
  Command.human_messages d now realm days_ago
  = Py.len (human_messages_in_window d now realm days_ago).
Proof. reflexivity. Qed.

Lemma stream_messages_is_len :
  stream_messages d now realm days_ago
  = Py.len (filter (filter_recipient__type d Recipient_STREAM)
              (human_messages_in_window d now realm days_ago)).
Proof.
  unfold stream_messages, human_messages_in_window. cbv zeta.
  now rewrite filter_filter.
Qed.

Lemma private_messages_is_len :
  private_messages d now realm days_ago
  = Py.len (filter (fun m => exclude_recipient__type d Recipient_STREAM m
                             && exclude_recipient__type d Recipient_HUDDLE m)
              (human_messages_in_window d now realm days_ago)).
Proof.
  unfold private_messages, human_messages_in_window. cbv zeta.
  now rewrite (filter_filter (exclude_recipient__type d Recipient_STREAM)).
Qed.

Lemma group_private_messages_is_len :
  group_private_messages d now realm days_ago
  = Py.len (filter (fun m => exclude_recipient__type d Recipient_STREAM m
                             && exclude_recipient__type d Recipient_PERSONAL m)
              (human_messages_in_window d now realm days_ago)).
Proof.
  unfold group_private_messages, human_messages_in_window. cbv zeta.
  now rewrite (filter_filter (exclude_recipient__type d Recipient_STREAM)).
Qed.

Lemma in_window_has_recipient (m : Message.t) :
  recipients_exist d = true ->
  In m (human_messages_in_window d now realm days_ago) ->
  exists t, recipient__type d m = Some t.
Proof.
  intros Hfk Hm. unfold human_messages_in_window, realm_stats.human_messages in Hm.
  apply filter_In in Hm as [Hm _]. apply filter_In in Hm as [Hm _].
  unfold recipients_exist in Hfk. rewrite forallb_forall in Hfk.
  specialize (Hfk m Hm). unfold recipient__type.
  destruct (get_recipient d (Message.recipient m)) as [r|]; [|discriminate].
  now exists (Recipient.type r).
Qed.

(** Every human message of the window is taken by one of the three counts,
    and a message to a recipient of another type by two of them. *)
Lemma recipient_counts_sum :
  Recipient_PERSONAL <> Recipient_HUDDLE ->
  recipients_exist d = true ->
  stream_messages d now realm days_ago
  + private_messages d now realm days_ago
  + group_private_messages d now realm days_ago
  = Command.human_messages d now realm days_ago
    + Py.len (filter (other_recipient_type d)
                (human_messages_in_window d now realm days_ago)).
Proof.
  intros Hneq Hfk.
  rewrite stream_messages_is_len, private_messages_is_len,
    group_private_messages_is_len, human_messages_is_len.
  apply len_three_way. intros m Hm.
  destruct (in_window_has_recipient m Hfk Hm) as [t Ht].
  unfold filter_recipient__type, exclude_recipient__type, other_recipient_type.
  rewrite Ht.
  destruct (Z.eqb_spec t Recipient_STREAM) as [Es|Es];
    destruct (Z.eqb_spec t Recipient_HUDDLE) as [Eh|Eh];
    destruct (Z.eqb_spec t Recipient_PERSONAL) as [Ep|Ep];
    simpl; try reflexivity; congruence.
Qed.

End RecipientCounts.

(** C1, as the report computes it. The stream, one-on-one and group counts
    of a window add up to at least the human count, and to exactly the
    human count when no human message of the window goes to a recipient
    whose type is none of the three: such a message is in both the
    one-on-one and the group count. *)
Theorem C1_recipient_counts_cover_human {models : Models} (d : Database) (now : Z)
    (realm : Realm.t) (days_ago : Z) :
  Recipient_PERSONAL <> Recipient_HUDDLE ->
  recipients_exist d = true ->
  Command.human_messages d now realm days_ago
  <= stream_messages d now realm days_ago
     + private_messages d now realm days_ago
     + group_private_messages d now realm days_ago
  /\ (stream_messages d now realm days_ago
      + private_messages d now realm days_ago
      + group_private_messages d now realm days_ago
      = Command.human_messages d now realm days_ago
      <-> forall m, In m (human_messages_in_window d now realm days_ago) ->
                    other_recipient_type d m = false).
Proof.
  intros Hneq Hfk.
  rewrite (recipient_counts_sum d now realm days_ago Hneq Hfk).
  rewrite <- len_filter_zero.
  pose proof (len_nonneg (filter (other_recipient_type d)
                            (human_messages_in_window d now realm days_ago))).
  split; [lia|]. split; lia.
Qed.

(** The statement on the sample database, seven days back. *)
Lemma C1_recipient_counts_cover_human_witness :
  Recipient_PERSONAL <> Recipient_HUDDLE
  /\ recipients_exist sample = true
  /\ stream_messages sample today realm_zulip 7
     + private_messages sample today realm_zulip 7
     + group_private_messages sample today realm_zulip 7
     = Command.human_messages sample today realm_zulip 7.
Proof.
  assert (Hneq : Recipient_PERSONAL <> Recipient_HUDDLE) by discriminate.
  assert (Hfk : recipients_exist sample = true) by reflexivity.
  split; [exact Hneq|]. split; [exact Hfk|].
  apply (C1_recipient_counts_cover_human sample today realm_zulip 7 Hneq Hfk).
  intros m Hm. vm_compute in Hm.
  repeat (destruct Hm as [<-|Hm]; [reflexivity|]). destruct Hm.
Defined.

(** With a human message to a recipient of a fourth type the three counts
    exceed the human count. *)
Lemma C1_sum_exceeds_human :
  ~ (stream_messages sample_other_recipient today realm_zulip 1
     + private_messages sample_other_recipient today realm_zulip 1
     + group_private_messages sample_other_recipient today realm_zulip 1
     <= Command.human_messages sample_other_recipient today realm_zulip 1).
Proof. vm_compute. intros H. apply H. reflexivity. Qed.

(** ** C9: what the users of a realm sent against the human count *)

Lemma sum_map_add {A : Type} (f g : A -> Z) (l : list A) :
  Py.sum (map (fun x => f x + g x) l) = Py.sum (map f l) + Py.sum (map g l).
Proof. induction l as [|x l IH]; simpl; lia. Qed.

Lemma sum_map_zero {A : Type} (f : A -> Z) (l : list A) :
  (forall x, In x l -> f x = 0) -> Py.sum (map f l) = 0.
Proof.
  induction l as [|x l IH]; intros H; simpl; [reflexivity|].
  rewrite (H x (or_introl eq_refl)), IH; [reflexivity|].
  intros y Hy. apply H. now right.
Qed.

(** Summing, over the rows [us], a count of the [l] that match each:
    bounded by one count over [l] when each element of [l] matches at most
    one row, and only if it satisfies [q]. *)
Lemma sum_len_filter_le {A B : Type} (p : A -> B -> bool) (q : B -> bool)
    (us : list A) (l : list B) :
  (forall m, In m l -> Py.sum (map (fun u => Z.b2z (p u m)) us) <= Z.b2z (q m)) ->
  Py.sum (map (fun u => Py.len (filter (p u) l)) us) <= Py.len (filter q l).
Proof.
  induction l as [|m l IH]; intros H.
  - rewrite sum_map_zero; [reflexivity|]. intros u _. reflexivity.
  - rewrite (map_ext _ (fun u => Z.b2z (p u m) + Py.len (filter (p u) l)))
      by (intros u; apply len_filter_cons).
    rewrite sum_map_add, len_filter_cons.
    specialize (H m (or_introl eq_refl)) as Hm.
    assert (IH' : Py.sum (map (fun u => Py.len (filter (p u) l)) us)
                  <= Py.len (filter q l))
      by (apply IH; intros m' Hm'; apply H; now right).
    lia.
Qed.

Section Senders.

Variable realm : Realm.t.

(** A selection of users of the realm, such as its active ones. *)
Variable selected : UserProfile.t -> bool.

Hypothesis selected_in_realm :
  forall u, selected u = true -> (UserProfile.realm u =? Realm.id realm) = true.

Lemma no_sender_with_fresh_id (k : Z) (table : list UserProfile.t) :
  ~ In k (map UserProfile.id table) ->
  Py.sum (map (fun u => Z.b2z (k =? UserProfile.id u)) (filter selected table)) = 0.
Proof.
  intros Hk. apply sum_map_zero. intros u Hu. apply filter_In in Hu as [Hu _].
  destruct (Z.eqb_spec k (UserProfile.id u)) as [E|]; [|reflexivity].
  exfalso. apply Hk. rewrite E. now apply in_map.
Qed.

(** With unique ids, a sender id belongs to at most one selected user, and
    then the join of the message with its sender finds that user. *)
Lemma at_most_one_sender (k : Z) (table : list UserProfile.t) :
  NoDup (map UserProfile.id table) ->
  Py.sum (map (fun u => Z.b2z (k =? UserProfile.id u)) (filter selected table))
  <= Z.b2z match find (fun u => UserProfile.id u =? k) table with
           | Some u => UserProfile.realm u =? Realm.id realm
           | None => false
           end.
Proof.
  induction table as [|u table IH]; intros Hnd; [reflexivity|].
  simpl in Hnd. apply NoDup_cons_iff in Hnd as [Hfresh Hnd].
  cbn [find filter].
  destruct (Z.eqb_spec (UserProfile.id u) k) as [E|E].
  - subst k. pose proof (no_sender_with_fresh_id _ table Hfresh) as Hrest.
    destruct (selected u) eqn:Hsel.
    + rewrite (selected_in_realm u Hsel).
      cbn [map Py.sum fold_right]. rewrite Z.eqb_refl.
      fold (Py.sum (map (fun u0 => Z.b2z (UserProfile.id u =? UserProfile.id u0))
                        (filter selected table))).
      rewrite Hrest. reflexivity.
    + rewrite Hrest. destruct (UserProfile.realm u =? Realm.id realm); discriminate.
  - specialize (IH Hnd). destruct (selected u); [|exact IH].
    cbn [map Py.sum fold_right].
    fold (Py.sum (map (fun u0 => Z.b2z (k =? UserProfile.id u0))
                      (filter selected table))).
    destruct (Z.eqb_spec k (UserProfile.id u)) as [E'|_]; [congruence|].
    cbn [Z.b2z]. lia.
Qed.

End Senders.

(** C9. For every realm and lookback window, the message counts of the
    realm's active users add up to at most [human_messages] of the realm:
    a message has one sender, and the senders the per-user counts leave out
    (deactivated users) are still in the realm's count. User ids are the
    primary key of their table. *)
Theorem C9_sender_quantities_le_human (d : Database) (now : Z) (realm : Realm.t)
    (days_ago : Z) :
  NoDup (userprofile_ids d) ->
  Py.sum (map (fun user => messages_sent_by d now user days_ago)
              (user_profiles_of realm d))
  <= Command.human_messages d now realm days_ago.
Proof.
  intros Hnd. unfold messages_sent_by, Command.human_messages. cbv zeta.
  apply sum_len_filter_le. intros m _.
  unfold date_sent__gt.
  destruct (now - Py.timedelta_days days_ago <? Message.date_sent m).
  - rewrite andb_true_r.
    rewrite (map_ext _ (fun u => Z.b2z (Message.sender m =? UserProfile.id u)))
      by (intros u; now rewrite andb_true_r).
    apply (at_most_one_sender realm _ (fun u H => proj1 (andb_prop _ _ H))
             (Message.sender m) (zerver_userprofile d) Hnd).
  - rewrite andb_false_r. rewrite sum_map_zero; [reflexivity|].
    intros u _. now rewrite andb_false_r.
Qed.

(** The statement on the sample database: over thirty days the active users
    of the realm sent 3 of its 4 human messages. *)
Lemma C9_sender_quantities_le_human_witness :
  NoDup (userprofile_ids sample)
  /\ Py.sum (map (fun user => messages_sent_by sample today user 30)
                 (user_profiles_of realm_zulip sample)) = 3
  /\ Command.human_messages sample today realm_zulip 30 = 4
  /\ Py.sum (map (fun user => messages_sent_by sample today user 30)
                 (user_profiles_of realm_zulip sample))
     <= Command.human_messages sample today realm_zulip 30.
Proof.
  assert (Hnd : NoDup (userprofile_ids sample)).
  { repeat constructor; simpl; intuition discriminate. }
  split; [exact Hnd|]. split; [reflexivity|]. split; [reflexivity|].
  exact (C9_sender_quantities_le_human sample today realm_zulip 30 Hnd).
Defined.

(** ** C10: users counted against the items counted *)

Lemma values_annotate_count_positive (keys : list Z) (k c : Z) :
  In (k, c) (values_annotate_count keys) -> In k keys /\ 1 <= c.
Proof.
  unfold values_annotate_count. rewrite in_map_iff.
  intros [k' [E Hk']]. injection E as -> <-. apply nodup_In in Hk'.
  split; [exact Hk'|].
  induction keys as [|k0 keys IH]; [destruct Hk'|].
  rewrite len_filter_cons. pose proof (len_nonneg (filter (Z.eqb k) keys)).
  destruct Hk' as [->|Hk'].
  - rewrite Z.eqb_refl. cbn [Z.b2z]. lia.
  - specialize (IH Hk'). destruct (k =? k0); cbn [Z.b2z]; lia.
Qed.

Lemma len_le_sum (l : list Z) :
  (forall c, In c l -> 1 <= c) -> Py.len l <= Py.sum l.
Proof.
  induction l as [|c l IH]; intros H; [reflexivity|].
  rewrite len_cons. cbn [Py.sum fold_right]. fold (Py.sum l).
  specialize (H c (or_introl eq_refl)) as Hc.
  assert (Py.len l <= Py.sum l) by (apply IH; intros c' Hc'; apply H; now right).
  lia.
Qed.

Lemma users_le_items (keys : list Z) :
  Py.len (values_annotate_count keys)
  <= Py.sum (map snd (values_annotate_count keys)).
Proof.
  replace (Py.len (values_annotate_count keys))
    with (Py.len (map snd (values_annotate_count keys)))
    by (unfold Py.len; now rewrite length_map).
  apply len_le_sum. intros c Hc. apply in_map_iff in Hc as [[k c'] [E Hin]].
  simpl in E. subst c'. now apply values_annotate_count_positive in Hin.
Qed.

(** C10. In each of the four lines "X users have ... Y ..." (starred
    messages, streams not in home view, code block markup, desktop
    notifications for streams) the total Y is at least the number of users
    X, each user that is counted contributing at least 1. *)
Theorem C10_items_at_least_users {models : Models} (d : Database) (realm : Realm.t) :
  let user_profiles := user_profiles_of realm d in
  let active_user_subs := active_user_subs_of user_profiles d in
  let at_least (rows : list (Z * Z)) :=
    Py.len rows <= Py.sum (map snd rows)
    /\ forall elt, In elt rows -> 1 <= snd elt in
  at_least (starrers_of user_profiles d)
  /\ at_least (non_home_view_of active_user_subs)
  /\ at_least (markup_messages_of realm d)
  /\ at_least (notifications_of active_user_subs).
Proof.
  cbv zeta.
  unfold starrers_of, non_home_view_of, markup_messages_of, notifications_of.
  repeat split; try apply users_le_items;
    intros [k c] Hin; now apply values_annotate_count_positive in Hin.
Qed.

(** ** Runs: what is printed, what is raised, what is left of the database *)

Lemma append_assoc (a b c : string) : ((a ++ b) ++ c)%string = (a ++ (b ++ c))%string.
Proof. induction a as [|x a IH]; simpl; [reflexivity|now rewrite IH]. Qed.

Lemma append_nil_r (a : string) : (a ++ "")%string = a.
Proof. induction a as [|x a IH]; simpl; [reflexivity|now rewrite IH]. Qed.

Lemma concat_cons (x : string) (l : list string) :
  String.concat "" (x :: l) = (x ++ String.concat "" l)%string.
Proof. destruct l; simpl; [now rewrite append_nil_r|reflexivity]. Qed.

Lemma bind_eval {A B : Type} (c : M A) (k : A -> M B) (w w' : World) (a : A) :
  c w = (w', inr a) -> bind c k w = k a w'.
Proof. unfold bind. now intros ->. Qed.

Lemma bind_raised {A B : Type} (c : M A) (k : A -> M B) (w w' : World)
    (e : exception) :
  c w = (w', inl e) -> bind c k w = (w', inl e).
Proof. unfold bind. now intros ->. Qed.

(** A computation is read only when, on every database, there is one text
    it appends and one result it gives, whatever was printed before. *)
Lemma read_only_intro {A : Type} (c : M A) :
  (forall d, exists out r, forall s, c (mkWorld d s) = (mkWorld d (s ++ out), r)) ->
  read_only c.
Proof.
  intros H [d s]. destruct (H d) as [out [r E]].
  cbn [db stdout]. unfold run. rewrite (E ""). cbn [fst snd stdout append].
  apply E.
Qed.

Lemma read_only_elim {A : Type} (c : M A) (d : Database) :
  read_only c ->
  exists out r, forall s, c (mkWorld d s) = (mkWorld d (s ++ out), r).
Proof.
  intros H. exists (fst (run c d)), (snd (run c d)). intros s.
  apply (H (mkWorld d s)).
Qed.

Lemma read_only_ret {A : Type} (a : A) : read_only (ret a).
Proof.
  apply read_only_intro. intros d. exists "", (inr a). intros s.
  unfold ret. now rewrite append_nil_r.
Qed.

Lemma read_only_raise {A : Type} (e : exception) : read_only (@raise A e).
Proof.
  apply read_only_intro. intros d. exists "", (inl e). intros s.
  unfold raise. now rewrite append_nil_r.
Qed.

Lemma read_only_query {A : Type} (q : Database -> A) : read_only (query q).
Proof.
  apply read_only_intro. intros d. exists "", (inr (q d)). intros s.
  unfold query. simpl. now rewrite append_nil_r.
Qed.

Lemma read_only_bind {A B : Type} (c : M A) (k : A -> M B) :
  read_only c -> (forall a, read_only (k a)) -> read_only (bind c k).
Proof.
  intros Hc Hk. apply read_only_intro. intros d.
  destruct (read_only_elim c d Hc) as [out [[e|a] E]].
  - exists out, (inl e). intros s. now rewrite (bind_raised _ _ _ _ _ (E s)).
  - destruct (read_only_elim (k a) d (Hk a)) as [out' [r E']].
    exists (out ++ out')%string, r. intros s.
    rewrite (bind_eval _ _ _ _ _ (E s)), E'. now rewrite append_assoc.
Qed.

Lemma read_only_except {A : Type} (c : M A) (h : exception -> M A) :
  read_only c -> (forall e, read_only (h e)) -> read_only (except_DoesNotExist c h).
Proof.
  intros Hc Hh. apply read_only_intro. intros d.
  destruct (read_only_elim c d Hc) as [out [r E]].
  destruct r as [e|a].
  - destruct e as [id|e| |].
    + destruct (read_only_elim (h (Realm_DoesNotExist id)) d (Hh _))
        as [out' [r E']].
      exists (out ++ out')%string, r. intros s.
      unfold except_DoesNotExist. rewrite E, E'. now rewrite append_assoc.
    + exists out, (inl (CommandError e)). intros s.
      unfold except_DoesNotExist. now rewrite E.
    + exists out, (inl ZeroDivisionError). intros s.
      unfold except_DoesNotExist. now rewrite E.
    + exists out, (inl OverflowError). intros s.
      unfold except_DoesNotExist. now rewrite E.
  - exists out, (inr a). intros s. unfold except_DoesNotExist. now rewrite E.
Qed.

Lemma read_only_for {A : Type} (l : list A) (body : A -> M unit) :
  (forall x, read_only (body x)) -> read_only (for_ l body).
Proof.
  intros Hbody. induction l as [|x l IH]; simpl.
  - apply read_only_ret.
  - apply read_only_bind; [apply Hbody|intros _; exact IH].
Qed.

Lemma read_only_print_end (s e : string) : read_only (print_end s e).
Proof.
  apply read_only_intro. intros d. exists (s ++ e)%string, (inr tt).
  intros s0. reflexivity.
Qed.

Lemma read_only_print (s : string) : read_only (print s).
Proof. apply read_only_print_end. Qed.

Lemma read_only_comprehension {A B : Type} (f : A -> M B) (l : list A) :
  (forall x, read_only (f x)) -> read_only (comprehension f l).
Proof.
  intros Hf. induction l as [|x l IH]; simpl.
  - apply read_only_ret.
  - apply read_only_bind; [apply Hf|intros y].
    apply read_only_bind; [exact IH|intros ys]. apply read_only_ret.
Qed.

Lemma read_only_float_ (n : Z) : read_only (float_ n).
Proof.
  unfold float_. cbv zeta.
  destruct (Py.is_infinity (Py.round_int n));
    [apply read_only_raise|apply read_only_ret].
Qed.

Lemma read_only_truediv (n : Z) (y : Py.float) : read_only (truediv n y).
Proof.
  unfold truediv. apply read_only_bind; [apply read_only_float_|intros x].
  destruct (Py.is_zero y); [apply read_only_raise|apply read_only_ret].
Qed.

Lemma read_only_get_realm (string_id : string) : read_only (get_realm string_id).
Proof.
  apply read_only_intro. intros d. unfold get_realm. simpl.
  destruct (find _ (zerver_realm d)) as [realm|].
  - exists "", (inr realm). intros s. now rewrite append_nil_r.
  - exists "", (inl (Realm_DoesNotExist string_id)). intros s.
    now rewrite append_nil_r.
Qed.

Create HintDb read_only.

#[local] Hint Resolve read_only_ret read_only_raise read_only_query
  read_only_print read_only_print_end read_only_float_ read_only_truediv
  read_only_get_realm : read_only.

Ltac read_only_steps :=
  repeat first
    [ solve [auto with read_only]
    | apply read_only_bind; [|intro]
    | apply read_only_for; intro
    | apply read_only_comprehension; intro
    | apply read_only_except; [|intro] ].

Lemma read_only_report_percentage (numerator denominator : Z) (text : string) :
  read_only (report_percentage numerator denominator text).
Proof.
  unfold report_percentage. read_only_steps.
  destruct (denominator =? 0); read_only_steps.
Qed.

Lemma read_only_handle_days_ago {models : Models} (now : Z) (realm : Realm.t)
    (user_profiles : list UserProfile.t) (days_ago : Z) :
  read_only (handle_days_ago now realm user_profiles days_ago).
Proof. unfold handle_days_ago. read_only_steps. Qed.

#[local] Hint Resolve read_only_report_percentage read_only_handle_days_ago
  : read_only.

Lemma read_only_handle_realm {models : Models} (now : Z) (realm : Realm.t) :
  read_only (handle_realm now realm).
Proof. unfold handle_realm. cbv zeta. read_only_steps. Qed.

(** ** C8: the command only reads *)

(** C8. Whatever the arguments, the clock and the database, and whether the
    run ends normally or by an exception, the database after the run is the
    database before it: every table is as it was. *)
Theorem C8_handle_leaves_database {models : Models} (options_realms : list string)
    (now : Z) (w : World) :
  db (fst (handle options_realms now w)) = db w.
Proof.
  assert (Hread : read_only (handle options_realms now)).
  { unfold handle. apply read_only_bind.
    - destruct options_realms as [|string_id rest].
      + apply read_only_query.
      + apply read_only_except; [|intros e; apply read_only_raise].
        apply read_only_comprehension. intros s. apply read_only_get_realm.
    - intros realms. apply read_only_for. intros realm.
      apply read_only_handle_realm. }
  rewrite (Hread w). reflexivity.
Qed.

(** ** C4 and C5: which realms a run reports on *)

Lemma get_realm_found (string_id : string) (w : World) (realm : Realm.t) :
  get_realm string_id w = (w, inr realm) ->
  In realm (zerver_realm (db w)) /\ Realm.string_id realm = string_id.
Proof.
  unfold get_realm.
  destruct (find _ (zerver_realm (db w))) as [r|] eqn:E; [|discriminate].
  intros [= <-]. apply find_some in E as [Hin E]. now apply String.eqb_eq in E.
Qed.

Lemma get_realm_total (string_id : string) (w : World) :
  (exists realm, get_realm string_id w = (w, inr realm))
  \/ (unknown_realm (db w) string_id
      /\ get_realm string_id w = (w, inl (Realm_DoesNotExist string_id))).
Proof.
  unfold get_realm.
  destruct (find _ (zerver_realm (db w))) as [r|] eqn:E.
  - left. now exists r.
  - right. split; [|reflexivity]. intros realm Hin Heq.
    apply (find_none _ _ E) in Hin. apply String.eqb_neq in Hin. contradiction.
Qed.

(** The list comprehension over the identifiers stops at the first one that
    names no realm, with nothing printed. *)
Lemma comprehension_get_realm_unknown (string_ids : list string) (w : World) :
  (exists s, In s string_ids /\ unknown_realm (db w) s) ->
  exists bad,
    In bad string_ids /\ unknown_realm (db w) bad
    /\ comprehension get_realm string_ids w = (w, inl (Realm_DoesNotExist bad)).
Proof.
  induction string_ids as [|s0 string_ids IH]; intros [s [Hin Hunknown]].
  - destruct Hin.
  - cbn [comprehension].
    destruct (get_realm_total s0 w) as [[realm E]|[Hs0 E]].
    + rewrite (bind_eval _ _ _ _ _ E).
      destruct Hin as [->|Hin].
      * apply get_realm_found in E as [Hr Hs]. exfalso.
        exact (Hunknown realm Hr Hs).
      * destruct IH as [bad [Hbad [Hbad' Erest]]]; [now exists s|].
        exists bad. split; [now right|]. split; [exact Hbad'|].
        now rewrite (bind_raised _ _ _ _ _ Erest).
    + exists s0. split; [now left|]. split; [exact Hs0|].
      now rewrite (bind_raised _ _ _ _ _ E).
Qed.

(** C4. When an identifier of the argument list names no realm, the command
    raises [CommandError] on the [Realm.DoesNotExist] of an identifier of
    the list that names no realm, and the run ends as it began: nothing is
    printed, no realm is reported on, not those whose identifiers are valid
    either. *)
Theorem C4_unknown_realm_aborts {models : Models} (options_realms : list string)
    (now : Z) (w : World) :
  (exists s, In s options_realms /\ unknown_realm (db w) s) ->
  exists bad,
    In bad options_realms /\ unknown_realm (db w) bad
    /\ handle options_realms now w
       = (w, inl (CommandError (Realm_DoesNotExist bad))).
Proof.
  intros Hex.
  destruct (comprehension_get_realm_unknown options_realms w Hex)
    as [bad [Hin [Hbad E]]].
  exists bad. split; [exact Hin|]. split; [exact Hbad|].
  unfold handle. destruct options_realms as [|s0 rest]; [destruct Hin|].
  apply bind_raised. unfold except_DoesNotExist. now rewrite E.
Qed.

(** The statement on the sample database, for the arguments zulip, nope and
    lear. *)
Lemma C4_unknown_realm_aborts_witness :
  exists bad,
    In bad ["zulip"; "nope"; "lear"] /\ unknown_realm sample bad
    /\ handle ["zulip"; "nope"; "lear"] today (mkWorld sample "")
       = (mkWorld sample "", inl (CommandError (Realm_DoesNotExist bad))).
Proof.
  apply (C4_unknown_realm_aborts ["zulip"; "nope"; "lear"] today (mkWorld sample "")).
  exists "nope". split; [simpl; tauto|].
  intros realm [<-|[<-|[]]]; discriminate.
Defined.

Lemma find_realm_by_string_id (table : list Realm.t) (realm : Realm.t) :
  NoDup (map Realm.string_id table) ->
  In realm table ->
  find (fun r => String.eqb (Realm.string_id r) (Realm.string_id realm)) table
  = Some realm.
Proof.
  induction table as [|r table IH]; intros Hnd Hin; [destruct Hin|].
  simpl in Hnd. apply NoDup_cons_iff in Hnd as [Hfresh Hnd]. cbn [find].
  destruct (String.eqb_spec (Realm.string_id r) (Realm.string_id realm)) as [E|E].
  - destruct Hin as [->|Hin]; [reflexivity|]. exfalso. apply Hfresh.
    rewrite E. now apply in_map.
  - destruct Hin as [->|Hin]; [congruence|]. now apply IH.
Qed.

(** With unique identifiers, the identifiers of realms resolve to those
    realms, in the order given. *)
Lemma comprehension_get_realm_known (realms : list Realm.t) (w : World) :
  NoDup (realm_string_ids (db w)) ->
  (forall realm, In realm realms -> In realm (zerver_realm (db w))) ->
  comprehension get_realm (map Realm.string_id realms) w = (w, inr realms).
Proof.
  intros Hnd. induction realms as [|realm realms IH]; intros Hin; [reflexivity|].
  cbn [map comprehension].
  assert (E : get_realm (Realm.string_id realm) w = (w, inr realm)).
  { unfold get_realm.
    now rewrite (find_realm_by_string_id _ realm Hnd (Hin realm (or_introl eq_refl))). }
  rewrite (bind_eval _ _ _ _ _ E).
  rewrite (bind_eval _ _ _ _ _ (IH (fun r Hr => Hin r (or_intror Hr)))).
  reflexivity.
Qed.

Lemma handle_resolved {models : Models} (realms : list Realm.t) (now : Z)
    (w : World) :
  NoDup (realm_string_ids (db w)) ->
  Permutation realms (zerver_realm (db w)) ->
  handle (map Realm.string_id realms) now w = for_ realms (handle_realm now) w.
Proof.
  intros Hnd Hperm. unfold handle.
  destruct realms as [|realm realms].
  { apply Permutation_nil in Hperm. cbn [map].
    rewrite (bind_eval _ _ w w [] ); [reflexivity|].
    unfold query, Realm_objects_all. now rewrite Hperm. }
  rewrite (bind_eval _ _ w w (realm :: realms)); [reflexivity|].
  cbn [map]. unfold except_DoesNotExist.
  change (Realm.string_id realm :: map Realm.string_id realms)
    with (map Realm.string_id (realm :: realms)).
  rewrite comprehension_get_realm_known; [reflexivity|exact Hnd|].
  intros r Hr. now apply (Permutation_in _ Hperm).
Qed.

(** C5. With no argument the command reports on all the realms of the
    database; the run is the run on the list of all their identifiers. For
    the identifiers in any order, the realms reported on are all the realms,
    each by the same report on the same database. Realm identifiers are
    unique. *)
Theorem C5_empty_list_is_all_realms {models : Models} (now : Z) (w : World) :
  NoDup (realm_string_ids (db w)) ->
  handle [] now w = for_ (zerver_realm (db w)) (handle_realm now) w
  /\ handle (realm_string_ids (db w)) now w = handle [] now w
  /\ forall string_ids,
       Permutation string_ids (realm_string_ids (db w)) ->
       exists realms,
         Permutation realms (zerver_realm (db w))
         /\ map Realm.string_id realms = string_ids
         /\ handle string_ids now w = for_ realms (handle_realm now) w.
Proof.
  intros Hnd.
  assert (Hall : handle [] now w = for_ (zerver_realm (db w)) (handle_realm now) w)
    by reflexivity.
  split; [exact Hall|]. split.
  - rewrite Hall. unfold realm_string_ids.
    now apply handle_resolved.
  - intros string_ids Hperm. unfold realm_string_ids in Hperm.
    apply Permutation_map_inv in Hperm as [realms [-> Hperm]].
    exists realms. split; [now apply Permutation_sym|]. split; [reflexivity|].
    apply handle_resolved; [exact Hnd|now apply Permutation_sym].
Qed.

(** The statement on the sample database, whose realms are zulip and lear. *)
Lemma C5_empty_list_is_all_realms_witness :
  NoDup (realm_string_ids sample)
  /\ handle ["zulip"; "lear"] today (mkWorld sample "")
     = handle [] today (mkWorld sample "").
Proof.
  assert (Hnd : NoDup (realm_string_ids sample)).
  { repeat constructor; simpl; intuition discriminate. }
  split; [exact Hnd|].
  exact (proj1 (proj2 (C5_empty_list_is_all_realms today (mkWorld sample "") Hnd))).
Defined.

(** ** C7: the lines of a lookback window *)

Lemma bind_print {B : Type} (s : string) (k : unit -> M B) (w : World) :
  bind (print s) k w = k tt (mkWorld (db w) (stdout w ++ s ++ newline)).
Proof. reflexivity. Qed.

Lemma bind_query {A B : Type} (q : Database -> A) (k : A -> M B) (w : World) :
  bind (query q) k w = k (q (db w)) w.
Proof. reflexivity. Qed.

Lemma comprehension_query {A B : Type} (f : A -> Database -> B) (l : list A)
    (w : World) :
  comprehension (fun x => query (f x)) l w = (w, inr (map (fun x => f x (db w)) l)).
Proof.
  induction l as [|x l IH]; cbn [comprehension map]; [reflexivity|].
  rewrite bind_query. now rewrite (bind_eval _ _ _ _ _ IH).
Qed.

Lemma for_print_end {A : Type} (g : A -> string) (e : string) (l : list A)
    (w : World) :
  for_ l (fun x => print_end (g x) e) w
  = (mkWorld (db w) (stdout w ++ String.concat "" (map (fun x => g x ++ e) l)),
     inr tt).
Proof.
  revert w. induction l as [|x l IH]; intros [d s]; cbn [for_ map].
  - unfold ret. cbn [String.concat db stdout]. now rewrite append_nil_r.
  - rewrite (bind_eval _ _ _ (mkWorld d (s ++ g x ++ e)) tt) by reflexivity.
    rewrite IH, concat_cons. cbn [db stdout]. now rewrite !append_assoc.
Qed.

Lemma sorted_reverse_descending (l : list Z) :
  StronglySorted Z.ge (sorted_reverse l).
Proof.
  assert (Htrans : Relations_1.Transitive
                     (fun x y => is_true (ZDescending.leb x y))).
  { intros x y z. unfold ZDescending.leb, is_true. lia. }
  pose proof (SortDescending.StronglySorted_sort l Htrans) as H.
  unfold sorted_reverse.
  induction H as [|x l' Hl' IH Hx]; constructor; [exact IH|].
  eapply Forall_impl; [|exact Hx].
  intros y. unfold ZDescending.leb, is_true. lia.
Qed.

Lemma sorted_reverse_permutation (l : list Z) : Permutation l (sorted_reverse l).
Proof. apply SortDescending.Permuted_sort. Qed.

Lemma handle_days_ago_eval {models : Models} (now : Z) (realm : Realm.t)
    (days_ago : Z) (w : World) :
  handle_days_ago now realm (user_profiles_of realm (db w)) days_ago w
  = (mkWorld (db w) (stdout w ++ window_report (db w) now realm days_ago), inr tt).
Proof.
  destruct w as [d s]. unfold handle_days_ago, window_report. cbn [db stdout].
  rewrite bind_print. cbn [db stdout].
  rewrite (bind_eval _ _ _ _ _ (comprehension_query _ _ _)). cbn [db stdout].
  rewrite (bind_eval _ _ _ _ _ (for_print_end _ _ _ _)). cbn [db stdout].
  rewrite bind_print. cbn [db stdout].
  repeat (rewrite bind_query; cbn [db stdout]; rewrite bind_print; cbn [db stdout]).
  rewrite bind_query. cbn [db stdout]. unfold print, print_end. cbn [db stdout].
  do 2 f_equal. rewrite !append_assoc. reflexivity.
Qed.

Lemma for_windows_eval {models : Models} (now : Z) (realm : Realm.t) (w : World) :
  for_ [1; 7; 30] (handle_days_ago now realm (user_profiles_of realm (db w))) w
  = (mkWorld (db w)
       (stdout w ++ window_report (db w) now realm 1
        ++ window_report (db w) now realm 7
        ++ window_report (db w) now realm 30),
     inr tt).
Proof.
  destruct w as [d s]. cbn [for_ db stdout].
  rewrite (bind_eval _ _ _ _ _ (handle_days_ago_eval now realm 1 (mkWorld d s))).
  cbn [db stdout].
  rewrite (bind_eval _ _ _ _ _ (handle_days_ago_eval now realm 7 (mkWorld d _))).
  cbn [db stdout].
  rewrite (bind_eval _ _ _ _ _ (handle_days_ago_eval now realm 30 (mkWorld d _))).
  cbn [db stdout]. unfold ret. now rewrite !append_assoc.
Qed.

(** C7. A realm's report has, after its first lines, the lookback windows
    of 1, 7 and 30 days in that order. Each window prints the message counts
    of the realm's users in non-increasing order, then the totals of stream
    messages, one-on-one private messages, messages sent via the API and
    group private messages, in that order. *)
Theorem C7_window_lines_in_order {models : Models} (now : Z) (realm : Realm.t)
    (w : World) :
  let d := db w in
  let sender_quantities days_ago :=
    map (fun user => messages_sent_by d now user days_ago)
        (user_profiles_of realm d) in
  (forall days_ago,
     StronglySorted Z.ge (sorted_reverse (sender_quantities days_ago))
     /\ Permutation (sender_quantities days_ago)
                    (sorted_reverse (sender_quantities days_ago)))
  /\ (forall days_ago,
        window_report d now realm days_ago
        = "In last " ++ Py.str days_ago ++ " days, users sent:" ++ newline
          ++ String.concat ""
               (map (fun quantity => Py.str quantity ++ " ")
                    (sorted_reverse (sender_quantities days_ago)))
          ++ newline
          ++ Py.str (stream_messages d now realm days_ago)
          ++ " stream messages" ++ newline
          ++ Py.str (private_messages d now realm days_ago)
          ++ " one-on-one private messages" ++ newline
          ++ Py.str (api_messages d now now realm days_ago)
          ++ " messages sent via the API" ++ newline
          ++ Py.str (group_private_messages d now realm days_ago)
          ++ " group private messages" ++ newline)
  /\ (forall days_ago s,
        handle_days_ago now realm (user_profiles_of realm d) days_ago (mkWorld d s)
        = (mkWorld d (s ++ window_report d now realm days_ago), inr tt))
  /\ exists rest,
       stdout (fst (handle_realm now realm w))
       = stdout w ++ realm_header d now realm
         ++ window_report d now realm 1
         ++ window_report d now realm 7
         ++ window_report d now realm 30
         ++ rest.
Proof.
  cbv zeta. split; [|split; [|split]].
  - intros days_ago. split;
      [apply sorted_reverse_descending|apply sorted_reverse_permutation].
  - reflexivity.
  - intros days_ago s.
    apply (handle_days_ago_eval now realm days_ago (mkWorld (db w) s)).
  - destruct w as [d s]. unfold handle_realm. cbv zeta. cbn [db stdout].
    rewrite bind_print. cbn [db stdout].
    rewrite !bind_query. cbn [db stdout].
    rewrite bind_print. cbn [db stdout].
    rewrite bind_query. cbn [db stdout].
    rewrite bind_print. cbn [db stdout].
    match goal with
    | |- exists rest, stdout (fst (bind _ ?k ?w1)) = @?rhs rest =>
        assert (Hrest : read_only (k tt)) by read_only_steps;
        exists (fst (run (k tt) d));
        rewrite (bind_eval _ k w1 _ tt (for_windows_eval now realm w1));
        cbn [db stdout]; rewrite Hrest
    end.
    cbn [db stdout fst]. unfold realm_header. rewrite !append_assoc. reflexivity.
Qed.

(** ** C2: percentages *)

(** *** The float of a non-zero integer is not zero *)

Lemma shr_1_halves (mrs : shr_record) :
  0 <= shr_m mrs -> shr_m (shr_1 mrs) = shr_m mrs / 2.
Proof.
  destruct mrs as [m r s]. cbn [shr_m].
  destruct m as [|[p|p|]|p]; intros Hm; cbn [shr_1 shr_m];
    first [ reflexivity
          | lia
          | apply Z.div_unique with (r := 1); lia
          | apply Z.div_unique with (r := 0); lia ].
Qed.

Lemma iter_shr_1_divides (p : positive) (mrs : shr_record) :
  0 <= shr_m mrs -> shr_m (iter_pos shr_1 p mrs) = shr_m mrs / 2 ^ Zpos p.
Proof.
  revert mrs. induction p as [p IH|p IH|]; intros mrs Hm; cbn [iter_pos].
  - assert (H1 : 0 <= shr_m (shr_1 mrs))
      by (rewrite shr_1_halves by exact Hm; apply Z.div_pos; lia).
    assert (H2 : 0 <= shr_m (iter_pos shr_1 p (shr_1 mrs)))
      by (rewrite IH by exact H1; apply Z.div_pos; lia).
    rewrite IH, IH, shr_1_halves by assumption.
    assert (E : 2 ^ Zpos p~1 = 2 * (2 ^ Zpos p * 2 ^ Zpos p)).
    { rewrite Pos2Z.inj_xI.
      replace (2 * Zpos p + 1) with (Z.succ (Zpos p + Zpos p)) by lia.
      now rewrite Z.pow_succ_r, Z.pow_add_r by lia. }
    rewrite !Z.div_div by lia. f_equal. rewrite E. ring.
  - assert (H1 : 0 <= shr_m (iter_pos shr_1 p mrs))
      by (rewrite IH by exact Hm; apply Z.div_pos; lia).
    rewrite IH, IH by assumption. rewrite Z.div_div by lia. f_equal.
    rewrite <- Z.pow_add_r by lia. f_equal. lia.
  - rewrite shr_1_halves by exact Hm. reflexivity.
Qed.

Lemma digits2_pos_lower (m : positive) :
  2 ^ Zpos (digits2_pos m) <= 2 * Zpos m.
Proof.
  induction m as [m IH|m IH|]; cbn [digits2_pos].
  - rewrite Pos2Z.inj_succ, Z.pow_succ_r by lia. lia.
  - rewrite Pos2Z.inj_succ, Z.pow_succ_r by lia. lia.
  - reflexivity.
Qed.

Lemma round_nearest_even_ge (mx : Z) (lx : location) :
  mx <= round_nearest_even mx lx.
Proof.
  destruct lx as [|[ | | ]]; cbn [round_nearest_even];
    try destruct (Z.even mx); lia.
Qed.

Lemma shr_record_of_loc_m (m : Z) (l : location) :
  shr_m (shr_record_of_loc m l) = m.
Proof. destruct l as [|[ | | ]]; reflexivity. Qed.

Lemma digits2_pos_upper (m : positive) : Zpos m < 2 ^ Zpos (digits2_pos m).
Proof.
  induction m as [m IH|m IH|]; cbn [digits2_pos].
  - rewrite Pos2Z.inj_succ, Z.pow_succ_r by lia. lia.
  - rewrite Pos2Z.inj_succ, Z.pow_succ_r by lia. lia.
  - reflexivity.
Qed.

Lemma Zdigits2_le (x k : Z) : 0 < x -> 0 <= k -> x < 2 ^ k -> Zdigits2 x <= k.
Proof.
  intros Hx Hk Hlt. destruct x as [|p|p]; try lia. cbn [Zdigits2].
  pose proof (digits2_pos_lower p) as Hlow.
  assert (H : 2 ^ Zpos (digits2_pos p) < 2 ^ (k + 1))
    by (rewrite Z.pow_add_r, Z.pow_1_r by lia; lia).
  apply Z.pow_lt_mono_r_iff in H; lia.
Qed.

(** Shifting a positive mantissa to its canonical exponent leaves it
    positive, as long as the exponent is not below the least one; the
    magnitude [digits + exponent] does not grow. *)
Lemma shr_fexp_bounds (m e D : Z) (l : location) :
  0 < m -> emin Py.prec Py.emax <= e -> Zdigits2 m + e <= D ->
  0 < shr_m (fst (shr_fexp Py.prec Py.emax m e l))
  /\ emin Py.prec Py.emax <= snd (shr_fexp Py.prec Py.emax m e l)
  /\ Zdigits2 (shr_m (fst (shr_fexp Py.prec Py.emax m e l)))
     + snd (shr_fexp Py.prec Py.emax m e l) <= D
  /\ snd (shr_fexp Py.prec Py.emax m e l) <= Z.max e (D - 53).
Proof.
  intros Hm He HD. destruct m as [|p|p]; try lia.
  unfold shr_fexp, shr. cbn [Zdigits2] in *.
  pose proof (digits2_pos_lower p) as Hd.
  pose proof (digits2_pos_upper p) as Hu.
  remember (fexp Py.prec Py.emax (Zpos (digits2_pos p) + e) - e) as n eqn:En.
  unfold fexp, emin, Py.prec, Py.emax in *.
  destruct n as [|q|q]; cbn [fst snd]; rewrite ?shr_record_of_loc_m;
    cbn [Zdigits2]; try (repeat split; lia).
  assert (Eq : Zpos q = Zpos (digits2_pos p) - 53) by lia.
  rewrite iter_shr_1_divides by (rewrite shr_record_of_loc_m; lia).
  rewrite shr_record_of_loc_m.
  assert (Hpow : 2 ^ Zpos q <= Zpos p).
  { assert (H2 : 2 * 2 ^ Zpos q <= 2 ^ Zpos (digits2_pos p)).
    { rewrite <- Z.pow_succ_r by lia. apply Z.pow_le_mono_r; lia. }
    lia. }
  assert (H2q : 0 < 2 ^ Zpos q) by (apply Z.pow_pos_nonneg; lia).
  assert (Hlow : 1 <= Zpos p / 2 ^ Zpos q) by (apply Z.div_le_lower_bound; lia).
  assert (Hhigh : Zpos p / 2 ^ Zpos q < 2 ^ 53).
  { apply Z.div_lt_upper_bound; [exact H2q|].
    rewrite <- Z.pow_add_r by lia.
    replace (Zpos q + 53) with (Zpos (digits2_pos p)) by lia. exact Hu. }
  pose proof (Zdigits2_le (Zpos p / 2 ^ Zpos q) 53) as Hdig.
  repeat split; lia.
Qed.

Lemma round_nearest_even_le (mx : Z) (lx : location) :
  round_nearest_even mx lx <= mx + 1.
Proof.
  destruct lx as [|[ | | ]]; cbn [round_nearest_even];
    try destruct (Z.even mx); lia.
Qed.

Lemma Zdigits2_succ (m m' : Z) : 0 < m -> 0 < m' <= m + 1 -> Zdigits2 m' <= Zdigits2 m + 1.
Proof.
  intros Hm Hm'. destruct m as [|p|p]; try lia. cbn [Zdigits2].
  pose proof (digits2_pos_upper p) as Hu.
  apply Zdigits2_le; [lia|lia|].
  rewrite Z.pow_add_r, Z.pow_1_r by lia. lia.
Qed.

(** Rounding a positive mantissa gives a float that is not zero, and not an
    infinity either when the magnitude is below the largest one. *)
Lemma binary_round_aux_bounds (sx : bool) (mx ex : Z) (lx : location) :
  0 < mx -> emin Py.prec Py.emax <= ex ->
  Py.is_zero (binary_round_aux Py.prec Py.emax sx mx ex lx) = false
  /\ (Zdigits2 mx + ex <= 1023 -> ex <= 0 ->
      Py.is_infinity (binary_round_aux Py.prec Py.emax sx mx ex lx) = false).
Proof.
  intros Hm He. unfold binary_round_aux.
  set (D := Z.max (Zdigits2 mx + ex) 0).
  destruct (shr_fexp_bounds mx ex D lx Hm He) as [Hm1 [He1 [Hd1 Hx1]]];
    [unfold D; lia|].
  destruct (shr_fexp Py.prec Py.emax mx ex lx) as [mrs1 e1]. cbn [fst snd] in *.
  pose proof (round_nearest_even_ge (shr_m mrs1) (loc_of_shr_record mrs1)) as Hr.
  pose proof (round_nearest_even_le (shr_m mrs1) (loc_of_shr_record mrs1)) as Hr'.
  pose proof (Zdigits2_succ (shr_m mrs1)
                (round_nearest_even (shr_m mrs1) (loc_of_shr_record mrs1)) Hm1)
    as Hd1'.
  destruct (shr_fexp_bounds
              (round_nearest_even (shr_m mrs1) (loc_of_shr_record mrs1))
              e1 (D + 1) loc_Exact) as [Hm2 [_ [_ Hx2]]]; [lia|exact He1|lia|].
  destruct (shr_fexp Py.prec Py.emax _ e1 loc_Exact) as [mrs2 e2].
  cbn [fst snd] in *.
  destruct (shr_m mrs2) as [|m2|m2]; try lia.
  split.
  - now destruct (e2 <=? Py.emax - Py.prec).
  - intros Hmag Hex. unfold Py.emax, Py.prec.
    destruct (Z.leb_spec e2 (1024 - 53)) as [_|Hgt]; [reflexivity|].
    unfold D in *. lia.
Qed.

Lemma pos_iter_xO (m q : positive) : Zpos (Pos.iter xO m q) = Zpos m * 2 ^ Zpos q.
Proof.
  induction q as [|q IH] using Pos.peano_ind.
  - cbn [Pos.iter]. rewrite Z.pow_1_r. lia.
  - rewrite Pos.iter_succ, Pos2Z.inj_xO, IH, Pos2Z.inj_succ, Z.pow_succ_r by lia.
    ring.
Qed.

Lemma binary_round_bounds (sx : bool) (m : positive) :
  Py.is_zero (binary_round Py.prec Py.emax sx m 0) = false
  /\ (Zpos m < 2 ^ 1023 ->
      Py.is_infinity (binary_round Py.prec Py.emax sx m 0) = false).
Proof.
  unfold binary_round, shl_align.
  pose proof (digits2_pos_upper m) as Hu.
  pose proof (Zdigits2_le (Zpos m) 1023) as Hdig. cbn [Zdigits2] in Hdig.
  remember (fexp Py.prec Py.emax (Zpos (digits2_pos m) + 0)) as e' eqn:Ee.
  assert (He' : emin Py.prec Py.emax <= e')
    by (subst e'; unfold fexp; apply Z.le_max_r).
  assert (Ee' : e' = Z.max (Zpos (digits2_pos m) - 53) (-1074))
    by (subst e'; unfold fexp, emin, Py.prec, Py.emax; f_equal; lia).
  destruct (e' - 0) as [|q|q] eqn:Ediff.
  - destruct (binary_round_aux_bounds sx (Zpos m) 0 loc_Exact) as [Hz Hi];
      [lia|unfold emin, Py.prec, Py.emax; lia|].
    split; [exact Hz|]. intros Hlt. apply Hi; cbn [Zdigits2]; lia.
  - destruct (binary_round_aux_bounds sx (Zpos m) 0 loc_Exact) as [Hz Hi];
      [lia|unfold emin, Py.prec, Py.emax; lia|].
    split; [exact Hz|]. intros Hlt. apply Hi; cbn [Zdigits2]; lia.
  - destruct (binary_round_aux_bounds sx (Zpos (Pos.iter xO m q)) e' loc_Exact)
      as [Hz Hi]; [lia|exact He'|].
    split; [exact Hz|]. intros Hlt. apply Hi; [|lia].
    assert (Hshift : Zdigits2 (Zpos (Pos.iter xO m q)) <= Zpos (digits2_pos m) + Zpos q).
    { apply Zdigits2_le; [lia|lia|].
      rewrite pos_iter_xO, Z.pow_add_r by lia.
      apply Z.mul_lt_mono_pos_r; [apply Z.pow_pos_nonneg; lia|exact Hu]. }
    lia.
Qed.

Lemma round_int_not_zero (n : Z) : n <> 0 -> Py.is_zero (Py.round_int n) = false.
Proof.
  intros Hn. unfold Py.round_int, binary_normalize.
  destruct n as [|m|m]; [contradiction| |]; apply binary_round_bounds.
Qed.

(** An integer below [2^1023] in absolute value converts to a float:
    [float(n)] does not raise [OverflowError]. *)
Lemma round_int_finite (n : Z) :
  Z.abs n < 2 ^ 1023 -> Py.is_infinity (Py.round_int n) = false.
Proof.
  intros Hn. unfold Py.round_int, binary_normalize.
  destruct n as [|m|m]; [reflexivity| |]; apply binary_round_bounds; exact Hn.
Qed.

(** *** What [report_percentage] prints *)

(** C2. [report_percentage] on a zero denominator prints 0.00% and divides
    nothing; on any other denominator it prints the quotient of the floats
    of numerator and denominator, times 100, with two decimals (for integers
    that floats can hold). No call raises [ZeroDivisionError]. *)
Theorem C2_report_percentage (numerator denominator : Z) (text : string)
    (w : World) :
  (denominator = 0 ->
   report_percentage numerator denominator text w
   = (mkWorld (db w) (stdout w ++ "0.00% of " ++ text ++ newline), inr tt))
  /\ (denominator <> 0 ->
      Z.abs numerator < 2 ^ 1023 ->
      Z.abs denominator < 2 ^ 1023 ->
      report_percentage numerator denominator text w
      = (mkWorld (db w)
           (stdout w
            ++ Py.format_2f
                 (Py.fmul (Py.fdiv (Py.round_int numerator)
                                   (Py.round_int denominator))
                          (Py.round_int 100))
            ++ "% of " ++ text ++ newline),
         inr tt))
  /\ snd (report_percentage numerator denominator text w) <> inl ZeroDivisionError.
Proof.
  unfold report_percentage.
  destruct (Z.eqb_spec denominator 0) as [E|E].
  - assert (Hzero : bind (ret (S754_zero false))
                      (fun fraction =>
                         print (Py.format_2f (Py.fmul fraction (Py.round_int 100))
                                ++ "% of" ++ " " ++ text)) w
                    = (mkWorld (db w) (stdout w ++ "0.00% of " ++ text ++ newline),
                       inr tt)) by reflexivity.
    rewrite Hzero. repeat split; [contradiction|discriminate].
  - pose proof (round_int_not_zero denominator E) as Hnz.
    pose proof (round_int_finite numerator) as Hfn.
    pose proof (round_int_finite denominator) as Hfd.
    split; [contradiction|].
    destruct (Py.is_infinity (Py.round_int denominator)) eqn:Hd.
    + rewrite (bind_raised _ _ w w OverflowError)
        by (unfold bind, float_; now rewrite Hd).
      split; [|cbn [snd]; discriminate].
      intros _ _ Hrange. specialize (Hfd Hrange). discriminate.
    + destruct (Py.is_infinity (Py.round_int numerator)) eqn:Hn.
      * rewrite (bind_raised _ _ w w OverflowError)
          by (unfold bind, truediv, bind, float_, ret; now rewrite Hd, Hn).
        split; [|cbn [snd]; discriminate].
        intros _ Hrange _. specialize (Hfn Hrange). discriminate.
      * rewrite (bind_eval _ _ w w (Py.fdiv (Py.round_int numerator)
                                            (Py.round_int denominator)))
          by (unfold bind, truediv, bind, float_, ret; now rewrite Hd, Hn, Hnz).
        split; [|discriminate]. intros _ _ _.
        unfold print, print_end. do 2 f_equal.
        now rewrite !append_assoc.
Qed.

(** The statement on two calls: none of none, and one of three. *)
Lemma C2_report_percentage_witness :
  report_percentage 0 0 "x" (mkWorld sample "")
  = (mkWorld sample ("0.00% of x" ++ newline), inr tt)
  /\ report_percentage 1 3 "x" (mkWorld sample "")
     = (mkWorld sample ("33.33% of x" ++ newline), inr tt).
Proof.
  split.
  - exact (proj1 (C2_report_percentage 0 0 "x" (mkWorld sample "")) eq_refl).
  - apply (proj1 (proj2 (C2_report_percentage 1 3 "x" (mkWorld sample ""))));
      [discriminate|reflexivity|reflexivity].
Defined.

(** ** Further properties of the counts *)

Lemma len_filter_mono {A : Type} (p q : A -> bool) (l : list A) :
  (forall x, In x l -> p x = true -> q x = true) ->
  Py.len (filter p l) <= Py.len (filter q l).
Proof.
  induction l as [|x l IH]; intros H; [reflexivity|].
  rewrite !len_filter_cons.
  assert (Py.len (filter p l) <= Py.len (filter q l))
    by (apply IH; intros y Hy; apply H; now right).
  specialize (H x (or_introl eq_refl)).
  destruct (p x); [rewrite H by reflexivity|destruct (q x)]; cbn [Z.b2z]; lia.
Qed.

Lemma date_sent__gt_longer (now days_ago days_ago' : Z) (m : Message.t) :
  days_ago <= days_ago' ->
  date_sent__gt (now - Py.timedelta_days days_ago) m = true ->
  date_sent__gt (now - Py.timedelta_days days_ago') m = true.
Proof. unfold date_sent__gt, Py.timedelta_days. lia. Qed.

(** A longer lookback window never counts less: each of the seven counts
    of the command is monotone in [days_ago]. *)
Theorem counts_grow_with_window {models : Models} (d : Database) (now : Z)
    (realm : Realm.t) (user : UserProfile.t) (days_ago days_ago' : Z) :
  days_ago <= days_ago' ->
  messages_sent_by d now user days_ago <= messages_sent_by d now user days_ago'
  /\ total_messages d now realm days_ago <= total_messages d now realm days_ago'
  /\ Command.human_messages d now realm days_ago
     <= Command.human_messages d now realm days_ago'
  /\ api_messages d now now realm days_ago
     <= api_messages d now now realm days_ago'
  /\ stream_messages d now realm days_ago <= stream_messages d now realm days_ago'
  /\ private_messages d now realm days_ago <= private_messages d now realm days_ago'
  /\ group_private_messages d now realm days_ago
     <= group_private_messages d now realm days_ago'.
Proof.
  intros Hle.
  pose proof (fun m => date_sent__gt_longer now days_ago days_ago' m Hle) as Hgt.
  repeat split.
  - apply len_filter_mono. intros m _.
    rewrite !andb_true_iff. intuition auto.
  - apply len_filter_mono. intros m _.
    rewrite !andb_true_iff. intuition auto.
  - apply len_filter_mono. intros m _.
    rewrite !andb_true_iff. intuition auto.
  - rewrite !api_messages_count, !filter_filter.
    apply len_filter_mono. intros m _.
    rewrite !andb_true_iff. intuition auto.
  - apply len_filter_mono. intros m _.
    rewrite !andb_true_iff. intuition auto.
  - unfold private_messages. cbv zeta. rewrite !filter_filter.
    apply len_filter_mono. intros m _.
    rewrite !andb_true_iff. intuition auto.
  - unfold group_private_messages. cbv zeta. rewrite !filter_filter.
    apply len_filter_mono. intros m _.
    rewrite !andb_true_iff. intuition auto.
Qed.

(** The statement on the sample database, from one day to seven. *)
Lemma counts_grow_with_window_witness :
  1 <= 7
  /\ Command.human_messages sample today realm_zulip 1
     <= Command.human_messages sample today realm_zulip 7.
Proof.
  assert (Hle : 1 <= 7) by lia.
  split; [exact Hle|].
  exact (proj1 (proj2 (proj2
           (counts_grow_with_window sample today realm_zulip
              (UserProfile.mk 10 1 true true false) 1 7 Hle)))).
Defined.

Lemma len_two_way {A : Type} (a b : A -> bool) (l : list A) :
  (forall x, In x l -> a x && b x = false) ->
  Py.len (filter a l) + Py.len (filter b l) <= Py.len l.
Proof.
  induction l as [|x l IH]; intros H; [reflexivity|].
  rewrite !len_filter_cons, len_cons.
  assert (Py.len (filter a l) + Py.len (filter b l) <= Py.len l)
    by (apply IH; intros y Hy; apply H; now right).
  specialize (H x (or_introl eq_refl)).
  destruct (a x), (b x); cbn [Z.b2z]; try discriminate; lia.
Qed.

(** A human message is never both a stream message and a one-on-one or
    group message: the stream count with either of the other two stays
    within the human count, whatever the recipient types in the database. *)
Theorem stream_and_direct_counts_disjoint {models : Models} (d : Database)
    (now : Z) (realm : Realm.t) (days_ago : Z) :
  stream_messages d now realm days_ago + private_messages d now realm days_ago
  <= Command.human_messages d now realm days_ago
  /\ stream_messages d now realm days_ago
     + group_private_messages d now realm days_ago
     <= Command.human_messages d now realm days_ago.
Proof.
  rewrite stream_messages_is_len, private_messages_is_len,
    group_private_messages_is_len, human_messages_is_len.
  split; apply len_two_way; intros m _;
    unfold filter_recipient__type, exclude_recipient__type;
    destruct (recipient__type d m) as [t|]; [|reflexivity| |reflexivity];
    destruct (t =? Recipient_STREAM); reflexivity.
Qed.

(** When the recipients of the window's human messages are streams, persons
    and huddles only, the two counts written with [exclude] are the counts
    of the messages to persons and to huddles. *)
Theorem direct_counts_by_recipient_type {models : Models} (d : Database)
    (now : Z) (realm : Realm.t) (days_ago : Z) :
  Recipient_PERSONAL <> Recipient_STREAM ->
  Recipient_HUDDLE <> Recipient_STREAM ->
  Recipient_PERSONAL <> Recipient_HUDDLE ->
  (forall m, In m (human_messages_in_window d now realm days_ago) ->
             other_recipient_type d m = false) ->
  private_messages d now realm days_ago
  = Py.len (filter (filter_recipient__type d Recipient_PERSONAL)
              (human_messages_in_window d now realm days_ago))
  /\ group_private_messages d now realm days_ago
     = Py.len (filter (filter_recipient__type d Recipient_HUDDLE)
                 (human_messages_in_window d now realm days_ago)).
Proof.
  intros Hps Hhs Hph Hother.
  rewrite private_messages_is_len, group_private_messages_is_len.
  split; f_equal; apply filter_ext_in; intros m Hm;
    specialize (Hother m Hm);
    unfold other_recipient_type, filter_recipient__type,
      exclude_recipient__type in *;
    destruct (recipient__type d m) as [t|]; try reflexivity;
    destruct (Z.eqb_spec t Recipient_STREAM);
    destruct (Z.eqb_spec t Recipient_HUDDLE);
    destruct (Z.eqb_spec t Recipient_PERSONAL);
    simpl in *; congruence.
Qed.

(** The statement on the sample database, thirty days back: one message to
    a person and one to a huddle. *)
Lemma direct_counts_by_recipient_type_witness :
  private_messages sample today realm_zulip 30 = 1
  /\ group_private_messages sample today realm_zulip 30 = 1
  /\ private_messages sample today realm_zulip 30
     = Py.len (filter (filter_recipient__type sample Recipient_PERSONAL)
                 (human_messages_in_window sample today realm_zulip 30)).
Proof.
  split; [reflexivity|]. split; [reflexivity|].
  apply (direct_counts_by_recipient_type sample today realm_zulip 30);
    try discriminate.
  intros m Hm. vm_compute in Hm.
  repeat (destruct Hm as [<-|Hm]; [reflexivity|]). destruct Hm.
Defined.

(** The users counted as active are active users of the realm: each is one
    of the users the report counts in its total. *)
Theorem active_users_among_user_profiles (d : Database) (now : Z)
    (realm : Realm.t) :
  incl (active_users d now realm) (user_profiles_of realm d)
  /\ Py.len (active_users d now realm) <= Py.len (zerver_useractivity d).
Proof.
  unfold active_users. cbv zeta. split.
  - intros u Hu. apply in_flat_map in Hu as [activity [_ Hu]].
    destruct (get_userprofile d (UserActivity.user_profile activity))
      as [user_profile|] eqn:Eu; [|destruct Hu].
    destruct (get_client d (UserActivity.client activity)) as [client|];
      [|destruct Hu].
    match type of Hu with In _ (if ?c then _ else _) => destruct c eqn:Ec end;
      [|destruct Hu].
    destruct Hu as [<-|[]].
    repeat (apply andb_prop in Ec as [Ec ?]).
    apply find_some in Eu as [Hin _].
    unfold user_profiles_of. apply filter_In. split; [exact Hin|].
    now apply andb_true_intro.
  - induction (zerver_useractivity d) as [|activity l IH]; [reflexivity|].
    cbn [flat_map]. unfold Py.len in *. rewrite length_app. cbn [List.length].
    destruct (get_userprofile d (UserActivity.user_profile activity));
      [|cbn [List.length]; lia].
    destruct (get_client d (UserActivity.client activity));
      [|cbn [List.length]; lia].
    match goal with |- context [if ?c then _ else _] => destruct c end;
      cbn [List.length]; lia.
Qed.

(** ** Grouped querysets *)

Lemma sum_indicator_nodup (x : Z) (l : list Z) :
  NoDup l ->
  Py.sum (map (fun k => Z.b2z (k =? x)) l) = Z.b2z (if in_dec Z.eq_dec x l then true else false).
Proof.
  induction l as [|k l IH]; intros Hnd; [reflexivity|].
  apply NoDup_cons_iff in Hnd as [Hk Hnd]. specialize (IH Hnd).
  cbn [map Py.sum fold_right]. fold (Py.sum (map (fun k0 => Z.b2z (k0 =? x)) l)).
  rewrite IH.
  destruct (in_dec Z.eq_dec x (k :: l)) as [Hin|Hout];
    destruct (in_dec Z.eq_dec x l) as [Hin'|Hout'];
    destruct (Z.eqb_spec k x) as [E|E]; cbn [Z.b2z]; try reflexivity.
  - subst k. contradiction.
  - destruct Hin as [Hin|Hin]; contradiction.
  - exfalso. apply Hout. now left.
  - exfalso. apply Hout. now right.
  - exfalso. apply Hout. now left.
Qed.

Lemma sum_counts_is_len (keys : list Z) :
  Py.sum (map (fun k => Py.len (filter (Z.eqb k) keys)) (nodup Z.eq_dec keys))
  = Py.len keys.
Proof.
  assert (Hgen : forall l,
            NoDup l -> (forall k, In k keys -> In k l) ->
            Py.sum (map (fun k => Py.len (filter (Z.eqb k) keys)) l) = Py.len keys).
  { induction keys as [|x keys IH]; intros l Hnd Hall.
    - apply sum_map_zero. intros k _. reflexivity.
    - rewrite (map_ext _ (fun k => Z.b2z (k =? x) + Py.len (filter (Z.eqb k) keys)))
        by (intros k; apply len_filter_cons).
      rewrite sum_map_add, sum_indicator_nodup by exact Hnd.
      rewrite IH by (try exact Hnd; intros k Hk; apply Hall; now right).
      rewrite len_cons.
      destruct (in_dec Z.eq_dec x l) as [_|Hout]; [reflexivity|].
      exfalso. apply Hout, Hall. now left. }
  apply Hgen; [apply NoDup_nodup|]. intros k Hk. now apply nodup_In.
Qed.

(** [.values(key).annotate(count=Count(key))] partitions the rows by key:
    one row per key that occurs, no key twice, and the counts add up to the
    number of rows of the queryset. So the total of each line "X users have
    ... Y ..." is the number of rows selected, and X is the number of
    distinct users among them. *)
Theorem values_annotate_count_partition (keys : list Z) :
  NoDup (map fst (values_annotate_count keys))
  /\ (forall k, In k (map fst (values_annotate_count keys)) <-> In k keys)
  /\ Py.sum (map snd (values_annotate_count keys)) = Py.len keys.
Proof.
  unfold values_annotate_count. rewrite !map_map. cbn [fst snd].
  rewrite map_id. split; [apply NoDup_nodup|]. split.
  - intros k. apply nodup_In.
  - apply sum_counts_is_len.
Qed.

Lemma grouped_users_le (user_profiles : list UserProfile.t) (keys : list Z) :
  (forall k, In k keys -> user_profile__in user_profiles k = true) ->
  Py.len (values_annotate_count keys) <= Py.len user_profiles.
Proof.
  intros Hkeys. unfold values_annotate_count, Py.len.
  rewrite length_map, <- (length_map UserProfile.id user_profiles).
  apply Nat2Z.inj_le. apply NoDup_incl_length; [apply NoDup_nodup|].
  intros k Hk. apply nodup_In in Hk. specialize (Hkeys k Hk).
  unfold user_profile__in in Hkeys. apply existsb_exists in Hkeys as [u [Hu E]].
  apply Z.eqb_eq in E. subst k. now apply in_map.
Qed.

(** The users with starred messages, with streams not in home view and with
    desktop notifications for streams are never more than the users the
    queries are restricted to (in the report: the total of the second line). *)
Theorem grouped_users_within_user_profiles {models : Models}
    (user_profiles : list UserProfile.t) (d : Database) :
  Py.len (starrers_of user_profiles d) <= Py.len user_profiles
  /\ Py.len (non_home_view_of (active_user_subs_of user_profiles d))
     <= Py.len user_profiles
  /\ Py.len (notifications_of (active_user_subs_of user_profiles d))
     <= Py.len user_profiles.
Proof.
  unfold starrers_of, non_home_view_of, notifications_of, active_user_subs_of.
  repeat split; apply grouped_users_le; intros k Hk;
    apply in_map_iff in Hk as [row [<- Hrow]];
    repeat (apply filter_In in Hrow as [Hrow ?]);
    match goal with
    | H : _ && _ = true |- _ => now apply andb_prop in H as [H _]
    end.
Qed.

(** ** Substring tests *)

Lemma prefix_append (needle rest : string) :
  String.prefix needle (needle ++ rest) = true.
Proof.
  induction needle as [|c needle IH]; [now destruct rest|].
  cbn [append String.prefix]. now destruct (ascii_dec c c).
Qed.

Lemma prefix_split (needle s : string) :
  String.prefix needle s = true -> exists rest, s = (needle ++ rest)%string.
Proof.
  revert s. induction needle as [|c needle IH]; intros s H.
  - now exists s.
  - destruct s as [|c' s]; [discriminate|]. cbn [String.prefix] in H.
    destruct (ascii_dec c c') as [<-|]; [|discriminate].
    destruct (IH s H) as [rest ->]. now exists rest.
Qed.

(** [content__contains] is the literal substring test: it holds exactly
    when the needle occurs somewhere in the content. *)
Theorem contains_iff_substring (needle s : string) :
  Py.contains needle s = true
  <-> exists before after, s = (before ++ needle ++ after)%string.
Proof.
  split.
  - induction s as [|c s IH]; cbn [Py.contains]; intros H;
      apply orb_prop in H as [H|H].
    + apply prefix_split in H as [rest ->]. now exists "", rest.
    + discriminate.
    + apply prefix_split in H as [rest ->]. now exists "", rest.
    + destruct (IH H) as [before [after ->]]. now exists (String c before), after.
  - intros [before [after ->]]. induction before as [|c before IH].
    + cbn [append]. destruct (needle ++ after)%string eqn:E;
        cbn [Py.contains]; rewrite <- E, prefix_append; reflexivity.
    + cbn [append Py.contains]. rewrite IH. apply orb_true_r.
Qed.

(** ** Which identifier a run fails on, and which realms it reports on *)

Lemma known_not_unknown (d : Database) (s : string) (l : list string) :
  known_realms d (s :: l) -> unknown_realm d s -> False.
Proof.
  intros Hknown Hunknown.
  destruct (Hknown s (or_introl eq_refl)) as [realm [Hin E]].
  exact (Hunknown realm Hin E).
Qed.

Lemma comprehension_first_unknown (known rest : list string) (bad : string)
    (w : World) :
  known_realms (db w) known -> unknown_realm (db w) bad ->
  comprehension get_realm (known ++ bad :: rest) w
  = (w, inl (Realm_DoesNotExist bad)).
Proof.
  intros Hknown Hbad. induction known as [|s known IH]; cbn [app comprehension].
  - destruct (get_realm_total bad w) as [[realm E]|[_ E]].
    + apply get_realm_found in E as [Hin E]. exfalso. exact (Hbad realm Hin E).
    + now rewrite (bind_raised _ _ _ _ _ E).
  - destruct (get_realm_total s w) as [[realm E]|[Hs _]].
    + rewrite (bind_eval _ _ _ _ _ E).
      rewrite (bind_raised _ _ w w (Realm_DoesNotExist bad)); [reflexivity|].
      apply IH. intros s' Hs'. apply Hknown. now right.
    + exfalso. exact (known_not_unknown _ _ _ Hknown Hs).
Qed.

(** The identifier the error names is the first one of the argument list
    that names no realm, whatever follows it. *)
Theorem handle_names_first_unknown {models : Models} (known rest : list string)
    (bad : string) (now : Z) (w : World) :
  known_realms (db w) known ->
  unknown_realm (db w) bad ->
  handle (known ++ bad :: rest) now w
  = (w, inl (CommandError (Realm_DoesNotExist bad))).
Proof.
  intros Hknown Hbad. unfold handle.
  pose proof (comprehension_first_unknown known rest bad w Hknown Hbad) as E.
  destruct (known ++ bad :: rest)%list as [|s l] eqn:El.
  - destruct known; discriminate.
  - apply bind_raised. unfold except_DoesNotExist. now rewrite E.
Qed.

(** The statement on the sample database: of nope and none, nope is named. *)
Lemma handle_names_first_unknown_witness :
  known_realms sample ["zulip"]
  /\ unknown_realm sample "nope"
  /\ handle ["zulip"; "nope"; "lear"; "none"] today (mkWorld sample "")
     = (mkWorld sample "", inl (CommandError (Realm_DoesNotExist "nope"))).
Proof.
  assert (Hknown : known_realms sample ["zulip"]).
  { intros s [<-|[]]. exists realm_zulip. split; [now left|reflexivity]. }
  assert (Hbad : unknown_realm sample "nope").
  { intros realm [<-|[<-|[]]]; discriminate. }
  split; [exact Hknown|]. split; [exact Hbad|].
  exact (handle_names_first_unknown ["zulip"] ["lear"; "none"] "nope" today
           (mkWorld sample "") Hknown Hbad).
Defined.

Lemma comprehension_get_realm_all_known (string_ids : list string) (w : World) :
  known_realms (db w) string_ids ->
  exists realms,
    map Realm.string_id realms = string_ids
    /\ incl realms (zerver_realm (db w))
    /\ comprehension get_realm string_ids w = (w, inr realms).
Proof.
  induction string_ids as [|s string_ids IH]; intros Hknown.
  - exists []. repeat split. intros r [].
  - destruct IH as [realms [Hmap [Hincl E]]];
      [intros s' Hs'; apply Hknown; now right|].
    destruct (get_realm_total s w) as [[realm Er]|[Hs _]].
    + exists (realm :: realms). pose proof (get_realm_found _ _ _ Er) as [Hin Hid].
      split; [cbn [map]; now rewrite Hid, Hmap|]. split.
      * intros r [<-|Hr]; [exact Hin|now apply Hincl].
      * cbn [comprehension]. rewrite (bind_eval _ _ _ _ _ Er).
        now rewrite (bind_eval _ _ _ _ _ E).
    + exfalso. exact (known_not_unknown _ _ _ Hknown Hs).
Qed.

(** Identifiers that all name realms are reported on in the order given,
    one report per identifier: a realm named twice is reported twice, a
    realm not named is not reported. *)
Theorem handle_reports_in_input_order {models : Models}
    (options_realms : list string) (now : Z) (w : World) :
  options_realms <> [] ->
  known_realms (db w) options_realms ->
  exists realms,
    map Realm.string_id realms = options_realms
    /\ incl realms (zerver_realm (db w))
    /\ handle options_realms now w = for_ realms (handle_realm now) w.
Proof.
  intros Hne Hknown.
  destruct (comprehension_get_realm_all_known options_realms w Hknown)
    as [realms [Hmap [Hincl E]]].
  exists realms. split; [exact Hmap|]. split; [exact Hincl|].
  unfold handle. destruct options_realms as [|s l]; [contradiction|].
  rewrite (bind_eval _ _ w w realms); [reflexivity|].
  unfold except_DoesNotExist. now rewrite E.
Qed.

(** The statement on the sample database: lear, zulip and lear again. *)
Lemma handle_reports_in_input_order_witness :
  known_realms sample ["lear"; "zulip"; "lear"]
  /\ exists realms,
       map Realm.string_id realms = ["lear"; "zulip"; "lear"]
       /\ incl realms (zerver_realm sample)
       /\ handle ["lear"; "zulip"; "lear"] today (mkWorld sample "")
          = for_ realms (handle_realm today) (mkWorld sample "").
Proof.
  assert (Hknown : known_realms sample ["lear"; "zulip"; "lear"]).
  { intros s [<-|[<-|[<-|[]]]];
      [exists realm_lear|exists realm_zulip|exists realm_lear];
      (split; [simpl; tauto|reflexivity]). }
  split; [exact Hknown|].
  apply (handle_reports_in_input_order ["lear"; "zulip"; "lear"] today
           (mkWorld sample "")); [discriminate|exact Hknown].
Defined.

(** ** The exceptions of a run *)

Lemma raises_only_ret {A : Type} (P : exception -> Prop) (a : A) :
  raises_only P (ret a).
Proof. intros w e H. discriminate. Qed.

Lemma raises_only_query {A : Type} (P : exception -> Prop) (q : Database -> A) :
  raises_only P (query q).
Proof. intros w e H. discriminate. Qed.

Lemma raises_only_print_end (P : exception -> Prop) (s e : string) :
  raises_only P (print_end s e).
Proof. intros w e' H. discriminate. Qed.

Lemma raises_only_print (P : exception -> Prop) (s : string) :
  raises_only P (print s).
Proof. apply raises_only_print_end. Qed.

Lemma raises_only_bind {A B : Type} (P : exception -> Prop) (c : M A)
    (k : A -> M B) :
  raises_only P c -> (forall a, raises_only P (k a)) -> raises_only P (bind c k).
Proof.
  intros Hc Hk w e. unfold bind. specialize (Hc w).
  destruct (c w) as [w' [e'|a]].
  - cbn [snd]. intros [= <-]. now apply Hc.
  - apply Hk.
Qed.

Lemma raises_only_for {A : Type} (P : exception -> Prop) (l : list A)
    (body : A -> M unit) :
  (forall x, raises_only P (body x)) -> raises_only P (for_ l body).
Proof.
  intros Hbody. induction l as [|x l IH]; cbn [for_].
  - apply raises_only_ret.
  - apply raises_only_bind; [apply Hbody|intros _; exact IH].
Qed.

Lemma raises_only_comprehension {A B : Type} (P : exception -> Prop)
    (f : A -> M B) (l : list A) :
  (forall x, raises_only P (f x)) -> raises_only P (comprehension f l).
Proof.
  intros Hf. induction l as [|x l IH]; cbn [comprehension].
  - apply raises_only_ret.
  - apply raises_only_bind; [apply Hf|intros y].
    apply raises_only_bind; [exact IH|intros ys]. apply raises_only_ret.
Qed.

Lemma raises_only_float_ (n : Z) : raises_only (eq OverflowError) (float_ n).
Proof.
  intros w e. unfold float_. cbv zeta.
  destruct (Py.is_infinity (Py.round_int n)); [|discriminate].
  cbn. now intros [= <-].
Qed.

(** The guard on the denominator leaves [float] as the only operation of
    [report_percentage] that can fail. *)
Lemma raises_only_report_percentage (numerator denominator : Z) (text : string) :
  raises_only (eq OverflowError) (report_percentage numerator denominator text).
Proof.
  intros w e. unfold report_percentage.
  destruct (Z.eqb_spec denominator 0) as [E|E]; [cbn; discriminate|].
  pose proof (round_int_not_zero denominator E) as Hnz.
  destruct (Py.is_infinity (Py.round_int denominator)) eqn:Hd.
  - rewrite (bind_raised _ _ w w OverflowError)
      by (unfold bind, float_; now rewrite Hd).
    cbn [snd]. now intros [= <-].
  - destruct (Py.is_infinity (Py.round_int numerator)) eqn:Hn.
    + rewrite (bind_raised _ _ w w OverflowError)
        by (unfold bind, truediv, bind, float_, ret; now rewrite Hd, Hn).
      cbn [snd]. now intros [= <-].
    + rewrite (bind_eval _ _ w w (Py.fdiv (Py.round_int numerator)
                                          (Py.round_int denominator)))
        by (unfold bind, truediv, bind, float_, ret; now rewrite Hd, Hn, Hnz).
      discriminate.
Qed.

Ltac raises_only_steps :=
  repeat first
    [ apply raises_only_report_percentage
    | apply raises_only_print
    | apply raises_only_print_end
    | apply raises_only_query
    | apply raises_only_ret
    | apply raises_only_for; intro
    | apply raises_only_comprehension; intro
    | apply raises_only_bind; [|intro] ].

Lemma raises_only_handle_days_ago {models : Models} (P : exception -> Prop)
    (now : Z) (realm : Realm.t) (user_profiles : list UserProfile.t)
    (days_ago : Z) :
  raises_only P (handle_days_ago now realm user_profiles days_ago).
Proof. unfold handle_days_ago. raises_only_steps. Qed.

Lemma raises_only_handle_realm {models : Models} (now : Z) (realm : Realm.t) :
  raises_only (eq OverflowError) (handle_realm now realm).
Proof.
  unfold handle_realm. cbv zeta.
  repeat first
    [ apply raises_only_handle_days_ago
    | apply raises_only_report_percentage
    | apply raises_only_print
    | apply raises_only_query
    | apply raises_only_for; intro
    | apply raises_only_bind; [|intro] ].
Qed.

(** A run ends normally or in one of two ways: by the [CommandError] of an
    identifier of the argument list that names no realm, or by the
    [OverflowError] of a count no float can hold. It never raises
    [ZeroDivisionError], and no [Realm.DoesNotExist] leaves it unwrapped. *)
Theorem handle_exceptions {models : Models} (options_realms : list string)
    (now : Z) (w : World) (e : exception) :
  snd (handle options_realms now w) = inl e ->
  e = OverflowError
  \/ exists bad,
       In bad options_realms /\ unknown_realm (db w) bad
       /\ e = CommandError (Realm_DoesNotExist bad).
Proof.
  unfold handle. destruct options_realms as [|s l].
  - rewrite bind_query. intros H. left. symmetry.
    exact (raises_only_for _ _ _ (raises_only_handle_realm now) w e H).
  - assert (Hcases : known_realms (db w) (s :: l)
                     \/ exists string_id, In string_id (s :: l)
                                          /\ unknown_realm (db w) string_id).
    { induction (s :: l) as [|s' l' IH].
      - left. intros s0 [].
      - destruct (get_realm_total s' w) as [[realm E]|[Hs' _]].
        + apply get_realm_found in E as [Hin E].
          destruct IH as [IH|[bad [Hbad Hun]]].
          * left. intros s0 [<-|Hs0]; [now exists realm|now apply IH].
          * right. exists bad. split; [now right|exact Hun].
        + right. exists s'. split; [now left|exact Hs']. }
    destruct Hcases as [Hknown|Hunknown].
    + destruct (comprehension_get_realm_all_known (s :: l) w Hknown)
        as [realms [_ [_ E]]].
      rewrite (bind_eval _ _ w w realms)
        by (unfold except_DoesNotExist; now rewrite E).
      intros H. left. symmetry.
      exact (raises_only_for _ _ _ (raises_only_handle_realm now) w e H).
    + destruct (comprehension_get_realm_unknown (s :: l) w Hunknown)
        as [bad [Hin [Hbad E]]].
      rewrite (bind_raised _ _ w w (CommandError (Realm_DoesNotExist bad)))
        by (unfold except_DoesNotExist; now rewrite E).
      cbn [snd]. intros [= <-]. right. now exists bad.
Qed.

(** The statement on the sample database, for the argument nope. *)
Lemma handle_exceptions_witness :
  snd (handle ["nope"] today (mkWorld sample ""))
  = inl (CommandError (Realm_DoesNotExist "nope"))
  /\ (CommandError (Realm_DoesNotExist "nope") = OverflowError
      \/ exists bad,
           In bad ["nope"] /\ unknown_realm sample bad
           /\ CommandError (Realm_DoesNotExist "nope")
              = CommandError (Realm_DoesNotExist bad)).
Proof.
  assert (H : snd (handle ["nope"] today (mkWorld sample ""))
              = inl (CommandError (Realm_DoesNotExist "nope"))) by reflexivity.
  split; [exact H|].
  exact (handle_exceptions ["nope"] today (mkWorld sample "") _ H).
Defined.

(** ** The whole report *)

Lemma report_percentage_returns (numerator denominator : Z) (text : string)
    (w : World) :
  Z.abs numerator < 2 ^ 1023 -> Z.abs denominator < 2 ^ 1023 ->
  report_percentage numerator denominator text w
  = (mkWorld (db w) (stdout w ++ percentage_line numerator denominator text),
     inr tt).
Proof.
  intros Hn Hd. unfold report_percentage, percentage_line, percentage.
  destruct (Z.eqb_spec denominator 0) as [E|E]; [reflexivity|].
  pose proof (round_int_not_zero denominator E) as Hnz.
  apply round_int_finite in Hn, Hd.
  rewrite (bind_eval _ _ w w (Py.fdiv (Py.round_int numerator)
                                      (Py.round_int denominator)))
    by (unfold bind, truediv, bind, float_, ret; now rewrite Hd, Hn, Hnz).
  unfold print, print_end. do 2 f_equal. now rewrite !append_assoc.
Qed.

Lemma len_active_users_le (d : Database) (now : Z) (realm : Realm.t) :
  Py.len (active_users d now realm) <= Py.len (zerver_useractivity d).
Proof.
  unfold active_users. cbv zeta.
  induction (zerver_useractivity d) as [|activity l IH]; [reflexivity|].
  cbn [flat_map]. unfold Py.len in *. rewrite length_app. cbn [List.length].
  destruct (get_userprofile d (UserActivity.user_profile activity));
    [|cbn [List.length]; lia].
  destruct (get_client d (UserActivity.client activity));
    [|cbn [List.length]; lia].
  match goal with |- context [if ?c then _ else _] => destruct c end;
    cbn [List.length]; lia.
Qed.

Lemma len_human_messages_le (d : Database) (p : Message.t -> bool) :
  Py.len (filter p (realm_stats.human_messages d)) <= Py.len (zerver_message d).
Proof.
  pose proof (len_filter_le p (realm_stats.human_messages d)).
  pose proof (len_filter_le
                (sending_client__name__in d realm_stats.HUMAN_CLIENT_LIST)
                (zerver_message d)).
  unfold realm_stats.human_messages in *. lia.
Qed.

Lemma handle_realm_eval {models : Models} (now : Z) (realm : Realm.t) (w : World) :
  Py.len (zerver_useractivity (db w)) < 2 ^ 1023 ->
  Py.len (zerver_message (db w)) < 2 ^ 1023 ->
  handle_realm now realm w
  = (mkWorld (db w) (stdout w ++ realm_report (db w) now realm), inr tt).
Proof.
  destruct w as [d s]. cbn [db stdout]. intros Hactivity Hmessage.
  pose proof (len_active_users_le d now realm) as Hactive.
  assert (Hcount : forall A (p : A -> bool) (l : list A),
            Py.len l < 2 ^ 1023 ->
            Z.abs (Py.len l) < 2 ^ 1023 /\ Z.abs (Py.len (filter p l)) < 2 ^ 1023).
  { intros A p l Hl. pose proof (len_nonneg l). pose proof (len_nonneg (filter p l)).
    pose proof (len_filter_le p l). rewrite !Z.abs_eq by assumption. lia. }
  assert (Hhuman : forall p,
            Z.abs (Py.len (filter p (realm_stats.human_messages d))) < 2 ^ 1023).
  { intros p. pose proof (len_nonneg (filter p (realm_stats.human_messages d))).
    pose proof (len_human_messages_le d p). rewrite Z.abs_eq by assumption. lia. }
  destruct (Hcount _ UserProfile.enable_desktop_notifications
              (active_users d now realm)) as [Hd1 Hn1]; [lia|].
  destruct (Hcount _ UserProfile.enter_sends (active_users d now realm))
    as [_ Hn2]; [lia|].
  unfold handle_realm. cbv zeta.
  rewrite bind_print. cbn [db stdout].
  rewrite !bind_query. cbn [db stdout].
  rewrite bind_print. cbn [db stdout].
  rewrite bind_query. cbn [db stdout].
  rewrite bind_print. cbn [db stdout].
  erewrite bind_eval by apply for_windows_eval. cbn [db stdout].
  erewrite bind_eval by (apply report_percentage_returns; assumption).
  cbn [db stdout].
  erewrite bind_eval by (apply report_percentage_returns; assumption).
  cbn [db stdout].
  rewrite !bind_query. cbn [db stdout].
  erewrite bind_eval by (apply report_percentage_returns; apply Hhuman).
  cbn [db stdout].
  rewrite bind_query. cbn [db stdout]. rewrite bind_print. cbn [db stdout].
  rewrite bind_query. cbn [db stdout]. rewrite bind_print. cbn [db stdout].
  rewrite bind_query. cbn [db stdout]. rewrite bind_print. cbn [db stdout].
  rewrite bind_print. cbn [db stdout].
  unfold print, print_end. cbn [db stdout].
  unfold realm_report, realm_header, realm_footer, users_line. cbv zeta.
  do 2 f_equal. rewrite !append_assoc. reflexivity.
Qed.

Lemma for_handle_realm_eval {models : Models} (now : Z) (realms : list Realm.t)
    (w : World) :
  Py.len (zerver_useractivity (db w)) < 2 ^ 1023 ->
  Py.len (zerver_message (db w)) < 2 ^ 1023 ->
  for_ realms (handle_realm now) w
  = (mkWorld (db w)
       (stdout w ++ String.concat "" (map (realm_report (db w) now) realms)),
     inr tt).
Proof.
  destruct w as [d s]. cbn [db stdout]. intros Hactivity Hmessage. revert s.
  induction realms as [|realm realms IH]; intros s; cbn [for_ map].
  - unfold ret. cbn [String.concat]. now rewrite append_nil_r.
  - rewrite (bind_eval _ _ _ _ _
               (handle_realm_eval now realm (mkWorld d s) Hactivity Hmessage)).
    cbn [db stdout]. rewrite IH, concat_cons. now rewrite append_assoc.
Qed.

(** On a database whose activity and message tables have fewer than
    [2^1023] rows, the report of a realm always completes, and it is the
    eleven parts in order: identifier, user counts, stream count, the three
    lookback windows, the three percentages, the four "X users" lines and a
    blank line. *)
Theorem realm_report_printed {models : Models} (now : Z) (realm : Realm.t)
    (w : World) :
  Py.len (zerver_useractivity (db w)) < 2 ^ 1023 ->
  Py.len (zerver_message (db w)) < 2 ^ 1023 ->
  handle_realm now realm w
  = (mkWorld (db w)
       (stdout w
        ++ realm_header (db w) now realm
        ++ window_report (db w) now realm 1
        ++ window_report (db w) now realm 7
        ++ window_report (db w) now realm 30
        ++ realm_footer (db w) now realm),
     inr tt)
  /\ exists lines,
       realm_footer (db w) now realm = (lines ++ newline ++ newline)%string.
Proof.
  intros Hactivity Hmessage. split.
  - apply (handle_realm_eval now realm w Hactivity Hmessage).
  - unfold realm_footer, users_line. cbv zeta.
    eexists. rewrite <- !append_assoc. reflexivity.
Qed.

(** The statement on the sample database. *)
Lemma realm_report_printed_witness :
  Py.len (zerver_useractivity sample) < 2 ^ 1023
  /\ Py.len (zerver_message sample) < 2 ^ 1023
  /\ handle_realm today realm_zulip (mkWorld sample "")
     = (mkWorld sample (realm_report sample today realm_zulip), inr tt).
Proof.
  assert (H1 : Py.len (zerver_useractivity sample) < 2 ^ 1023) by reflexivity.
  assert (H2 : Py.len (zerver_message sample) < 2 ^ 1023) by reflexivity.
  split; [exact H1|]. split; [exact H2|].
  exact (proj1 (realm_report_printed today realm_zulip (mkWorld sample "") H1 H2)).
Defined.

(** On such a database a run whose identifiers all name realms completes,
    and prints the reports of the realms named, in the order given; with no
    identifier, those of all realms in the order of the table. Unknown
    identifiers are the only failure. *)
Theorem handle_prints_reports {models : Models} (options_realms : list string)
    (now : Z) (w : World) :
  Py.len (zerver_useractivity (db w)) < 2 ^ 1023 ->
  Py.len (zerver_message (db w)) < 2 ^ 1023 ->
  known_realms (db w) options_realms ->
  exists realms,
    (options_realms = [] -> realms = zerver_realm (db w))
    /\ (options_realms <> [] -> map Realm.string_id realms = options_realms)
    /\ incl realms (zerver_realm (db w))
    /\ handle options_realms now w
       = (mkWorld (db w)
            (stdout w ++ String.concat "" (map (realm_report (db w) now) realms)),
          inr tt).
Proof.
  intros Hactivity Hmessage Hknown. unfold handle.
  destruct options_realms as [|s l].
  - exists (zerver_realm (db w)).
    split; [reflexivity|]. split; [contradiction|]. split; [apply incl_refl|].
    rewrite bind_query. now apply for_handle_realm_eval.
  - destruct (comprehension_get_realm_all_known (s :: l) w Hknown)
      as [realms [Hmap [Hincl E]]].
    exists realms. split; [discriminate|]. split; [intros _; exact Hmap|].
    split; [exact Hincl|].
    rewrite (bind_eval _ _ w w realms)
      by (unfold except_DoesNotExist; now rewrite E).
    now apply for_handle_realm_eval.
Qed.

(** The statement on the sample database, for the arguments lear and zulip. *)
Lemma handle_prints_reports_witness :
  known_realms sample ["lear"; "zulip"]
  /\ exists realms,
       (["lear"; "zulip"] = [] -> realms = zerver_realm sample)
       /\ (["lear"; "zulip"] <> [] ->
           map Realm.string_id realms = ["lear"; "zulip"])
       /\ incl realms (zerver_realm sample)
       /\ handle ["lear"; "zulip"] today (mkWorld sample "")
          = (mkWorld sample
               (String.concat "" (map (realm_report sample today) realms)),
             inr tt).
Proof.
  assert (Hknown : known_realms sample ["lear"; "zulip"]).
  { intros s [<-|[<-|[]]]; [exists realm_lear|exists realm_zulip];
      (split; [simpl; tauto|reflexivity]). }
  split; [exact Hknown|].
  apply (handle_prints_reports ["lear"; "zulip"] today (mkWorld sample ""));
    [reflexivity|reflexivity|exact Hknown].
Defined.

(** ** None and all *)

Lemma binary_round_aux_shape (sx : bool) (mx ex : Z) (lx : location) :
  0 < mx -> emin Py.prec Py.emax <= ex ->
  match binary_round_aux Py.prec Py.emax sx mx ex lx with
  | S754_nan => False
  | S754_zero s | S754_infinity s | S754_finite s _ _ => s = sx
  end.
Proof.
  intros Hm He. unfold binary_round_aux.
  destruct (shr_fexp_bounds mx ex (Zdigits2 mx + ex) lx Hm He) as [Hm1 [He1 _]];
    [lia|].
  destruct (shr_fexp Py.prec Py.emax mx ex lx) as [mrs1 e1]. cbn [fst snd] in *.
  pose proof (round_nearest_even_ge (shr_m mrs1) (loc_of_shr_record mrs1)) as Hr.
  destruct (shr_fexp_bounds
              (round_nearest_even (shr_m mrs1) (loc_of_shr_record mrs1)) e1
              (Zdigits2 (round_nearest_even (shr_m mrs1) (loc_of_shr_record mrs1))
               + e1) loc_Exact) as [Hm2 _]; [lia|exact He1|lia|].
  destruct (shr_fexp Py.prec Py.emax _ e1 loc_Exact) as [mrs2 e2].
  cbn [fst] in Hm2.
  destruct (shr_m mrs2) as [|m2|m2]; try lia.
  now destruct (e2 <=? Py.emax - Py.prec).
Qed.

(** The float of a positive integer in range is a positive finite float. *)
Lemma round_int_positive (n : Z) :
  0 < n < 2 ^ 1023 -> exists m e, Py.round_int n = S754_finite false m e.
Proof.
  intros [Hpos Hlt]. destruct n as [|p|p]; try lia.
  destruct (binary_round_bounds false p) as [Hz Hi]. specialize (Hi Hlt).
  unfold Py.round_int, binary_normalize in *.
  assert (Hshape : match binary_round Py.prec Py.emax false p 0 with
                   | S754_nan => False
                   | S754_zero s | S754_infinity s | S754_finite s _ _ => s = false
                   end).
  { unfold binary_round, shl_align.
    remember (fexp Py.prec Py.emax (Zpos (digits2_pos p) + 0)) as e' eqn:Ee.
    assert (emin Py.prec Py.emax <= e')
      by (subst e'; unfold fexp; apply Z.le_max_r).
    destruct (e' - 0) as [|q|q]; apply binary_round_aux_shape;
      unfold emin, Py.prec, Py.emax in *; lia. }
  destruct (binary_round Py.prec Py.emax false p 0) as [s|s| |s m e];
    try discriminate; [contradiction|].
  subst s. now exists m, e.
Qed.

Lemma new_location_zero (nb_steps : Z) : new_location nb_steps 0 = loc_Exact.
Proof. unfold new_location. now destruct (Z.even nb_steps). Qed.

(** A finite float divided by itself is 1.0. *)
Lemma fdiv_self (s : bool) (m : positive) (e : Z) :
  Py.fdiv (S754_finite s m e) (S754_finite s m e) = float_one.
Proof.
  unfold Py.fdiv, SFdiv, SFdiv_core_binary.
  rewrite !Z.sub_diag, xorb_nilpotent.
  change (Z.min (fexp Py.prec Py.emax 0) 0) with (-53).
  change (0 - -53) with 53.
  rewrite Z.shiftl_mul_pow2 by lia.
  rewrite (surjective_pairing (Z.div_eucl (Zpos m * 2 ^ 53) (Zpos m))).
  change (fst (Z.div_eucl (Zpos m * 2 ^ 53) (Zpos m)))
    with (Zpos m * 2 ^ 53 / Zpos m).
  change (snd (Z.div_eucl (Zpos m * 2 ^ 53) (Zpos m)))
    with ((Zpos m * 2 ^ 53) mod Zpos m).
  rewrite Z.mul_comm, Z.div_mul, Z.mod_mul by lia.
  rewrite new_location_zero. reflexivity.
Qed.

(** When the numerator is zero the line reads 0.00%, and when it is the
    denominator, 100.00%: none and all of a positive count that a float can
    hold print exactly. *)
Theorem report_percentage_none_and_all (denominator : Z) (text : string)
    (w : World) :
  0 < denominator < 2 ^ 1023 ->
  report_percentage 0 denominator text w
  = (mkWorld (db w) (stdout w ++ "0.00% of " ++ text ++ newline), inr tt)
  /\ report_percentage denominator denominator text w
     = (mkWorld (db w) (stdout w ++ "100.00% of " ++ text ++ newline), inr tt).
Proof.
  intros Hd.
  assert (Habs : Z.abs denominator < 2 ^ 1023) by (rewrite Z.abs_eq; lia).
  destruct (round_int_positive denominator Hd) as [m [e E]].
  split.
  - rewrite report_percentage_returns by (try exact Habs; reflexivity).
    unfold percentage_line, percentage.
    destruct (Z.eqb_spec denominator 0); [lia|]. rewrite E. reflexivity.
  - rewrite report_percentage_returns by exact Habs.
    unfold percentage_line, percentage.
    destruct (Z.eqb_spec denominator 0); [lia|]. rewrite E, fdiv_self.
    reflexivity.
Qed.

(** The statement for a count of 7. *)
Lemma report_percentage_none_and_all_witness :
  0 < 7 < 2 ^ 1023
  /\ report_percentage 7 7 "x" (mkWorld sample "")
     = (mkWorld sample ("100.00% of x" ++ newline), inr tt).
Proof.
  assert (H : 0 < 7 < 2 ^ 1023) by (split; reflexivity).
  split; [exact H|].
  exact (proj2 (report_percentage_none_and_all 7 "x" (mkWorld sample "") H)).
Defined.

(** ** Realms against each other *)

Lemma at_most_one_realm (k : Z) (realms : list Realm.t) :
  NoDup (map Realm.id realms) ->
  Py.sum (map (fun realm => Z.b2z (k =? Realm.id realm)) realms) <= 1.
Proof.
  intros Hnd.
  rewrite (map_ext _ (fun realm => Z.b2z (Realm.id realm =? k)))
    by (intros realm; now rewrite Z.eqb_sym).
  rewrite <- (map_map Realm.id (fun id => Z.b2z (id =? k))).
  rewrite sum_indicator_nodup by exact Hnd.
  destruct (in_dec Z.eq_dec k (map Realm.id realms)); cbn [Z.b2z]; lia.
Qed.

(** No message is counted for two realms: with realm ids unique, the totals
    of all the realms for one window add up to at most the number of
    messages in the database. *)
Theorem realms_do_not_share_messages (d : Database) (now : Z) (days_ago : Z) :
  NoDup (map Realm.id (zerver_realm d)) ->
  Py.sum (map (fun realm => total_messages d now realm days_ago) (zerver_realm d))
  <= Py.len (zerver_message d).
Proof.
  intros Hnd. unfold total_messages. cbv zeta.
  replace (Py.len (zerver_message d))
    with (Py.len (filter (fun _ => true) (zerver_message d)))
    by now rewrite filter_true.
  apply sum_len_filter_le. intros m _. cbn [Z.b2z].
  destruct (date_sent__gt (now - Py.timedelta_days days_ago) m).
  - rewrite (map_ext _ (fun realm => Z.b2z (sender__realm d realm m)))
      by (intros realm; now rewrite andb_true_r).
    unfold sender__realm.
    destruct (get_userprofile d (Message.sender m)) as [u|].
    + now apply at_most_one_realm.
    + rewrite sum_map_zero; [lia|]. intros realm _. reflexivity.
  - rewrite sum_map_zero; [lia|]. intros realm _. now rewrite andb_false_r.
Qed.

(** The statement on the sample database: 4 messages for zulip and none for
    lear, of 5 in the database. *)
Lemma realms_do_not_share_messages_witness :
  NoDup (map Realm.id (zerver_realm sample))
  /\ Py.sum (map (fun realm => total_messages sample today realm 7)
                 (zerver_realm sample)) = 4
  /\ Py.sum (map (fun realm => total_messages sample today realm 7)
                 (zerver_realm sample))
     <= Py.len (zerver_message sample).
Proof.
  assert (Hnd : NoDup (map Realm.id (zerver_realm sample))).
  { repeat constructor; simpl; intuition discriminate. }
  split; [exact Hnd|]. split; [reflexivity|].
  exact (realms_do_not_share_messages sample today 7 Hnd).
Defined.
